(** * fafserver: the request-serving pipeline of [main.go]

    A shallow embedding of the handler boundary ([makeHandler]), the path
    resolution ([myFileServer]), the orchestrator ([serveFile]), the
    conditional-GET check ([checkLastModified]), the directory listing
    ([sortedDirList] with the [sortedFiles] ordering) and the credential
    generation ([randToken], [initUserPass]).

    Strings are byte strings ([string], one [ascii] per byte), times are
    instants counted in nanoseconds, the response writer is a record that is
    threaded through a state monad which also carries panics. *)

From Stdlib Require Import ZArith Lia List Ascii String Bool Permutation Sorted.
From Stdlib Require Import Strings.Byte.
From Equations Require Import Equations.
From stdpp Require Import base option list gmap strings sorting pretty.

Local Open Scope string_scope.
Local Open Scope Z_scope.

(** ** Characters that cannot be written inside a string literal *)

Definition nl : string := String (ascii_of_nat 10) EmptyString.
Definition dq : string := String (ascii_of_nat 34) EmptyString.
Definition nul : ascii := ascii_of_nat 0.

(** ** Package [path] / [path/filepath] (Unix, separator ['/']) *)

Module Path.

(** [strings.Split(s, "/")]: the elements between the separators; there is
    always at least one element. *)
Fixpoint split_slash (s : string) : list string :=
  match s with
  | EmptyString => [EmptyString]
  | String c s' =>
      if Ascii.eqb c "/" then EmptyString :: split_slash s'
      else match split_slash s' with
           | x :: xs => String c x :: xs
           | [] => [String c EmptyString]
           end
  end.

(** One element of the scan of [Clean]. [out] is the output written so far,
    last element first. Empty elements and ["."] are skipped; [".."] removes
    the last element when there is one to remove, is kept at the start of a
    path that is not rooted, and is dropped at the start of a rooted path;
    anything else is appended. *)
Definition clean_step (rooted : bool) (out : list string) (elem : string)
  : list string :=
  if String.eqb elem "" || String.eqb elem "." then out
  else if String.eqb elem ".." then
    match out with
    | top :: rest =>
        if String.eqb top ".." then (if rooted then out else elem :: out)
        else rest
    | [] => if rooted then [] else [elem]
    end
  else elem :: out.

Definition is_rooted (path : string) : bool :=
  match path with
  | String c _ => Ascii.eqb c "/"
  | EmptyString => false
  end.

Definition clean_elems (path : string) : list string :=
  rev (fold_left (clean_step (is_rooted path)) (split_slash path) []).

(** [path.Clean] (and [filepath.Clean] on Unix). *)
Definition Clean (path : string) : string :=
  if String.eqb path "" then "."
  else
    let out := clean_elems path in
    if is_rooted path then "/" +:+ String.concat "/" out
    else match out with
         | [] => "."
         | _ => String.concat "/" out
         end.

(** [filepath.Join]: the elements from the first non-empty one on, joined with
    the separator and cleaned; the empty string when every element is empty. *)
Fixpoint Join (elem : list string) : string :=
  match elem with
  | [] => ""
  | e :: rest =>
      if String.eqb e "" then Join rest
      else Clean (String.concat "/" elem)
  end.

(** [filepath.Split]: the path cut after its last separator. *)
Fixpoint Split (path : string) : string * string :=
  match path with
  | EmptyString => ("", "")
  | String c rest =>
      let '(dir, file) := Split rest in
      match dir with
      | EmptyString =>
          if Ascii.eqb c "/" then (String c EmptyString, file)
          else ("", String c file)
      | _ => (String c dir, file)
      end
  end.

(** The names on the way from the file-system root to [path]. *)
Definition elems (path : string) : list string :=
  filter (fun e => e ≠ "") (split_slash path).

(** [path] is [root] or lies below it. *)
Definition within (root path : string) : Prop :=
  elems root `prefix_of` elems path.

Definition contains_nul (s : string) : bool :=
  existsb (Ascii.eqb nul) (list_ascii_of_string s).

End Path.

(** ** Data model *)

(** [time.Time] as an instant: nanoseconds since the zero time
    (January 1, year 1, 00:00:00 UTC). [time.Duration] is nanoseconds too. *)
Definition Time := Z.
Definition time_Second : Z := 1000000000.
Definition Time_IsZero (t : Time) : bool := t =? 0.
Definition Time_Add (t : Time) (d : Z) : Time := t + d.
Definition Time_Before (t u : Time) : bool := t <? u.

(** [os.FileInfo], the three methods the server calls. *)
Record FileInfo := mkFileInfo {
  Name : string;
  IsDir : bool;
  ModTime : Time
}.

(** [http.File]: an open handle. [f_stat] is the result of [Stat] ([None] for
    an error), [f_dir] what is left to read of a directory, entry by entry
    ([None] for an entry the read fails on), [f_data] the bytes of a file. *)
Record File := mkFile {
  f_stat : option FileInfo;
  f_dir : list (option FileInfo);
  f_data : string
}.

(** The file system as [os.Open] sees it: a full name gives a handle or an
    error. *)
Definition FileSystem := string -> option File.

(** [http.Header]; the keys used by the server are in canonical form. *)
Definition Header_Get (h : gmap string (list string)) (key : string) : string :=
  match h !! key with
  | Some (v :: _) => v
  | _ => ""
  end.

Record Request := mkRequest {
  Method : string;
  URL_Path : string;
  Header : gmap string (list string)
}.

(** [http.ResponseWriter]: the header map, the status once it is committed,
    and the body written so far. *)
Record ResponseWriter := mkResponseWriter {
  rw_header : gmap string (list string);
  rw_status : option Z;
  rw_body : string
}.

Definition StatusOK : Z := 200.
Definition StatusNotModified : Z := 304.
Definition StatusUnauthorized : Z := 401.
Definition StatusNotFound : Z := 404.
Definition StatusInternalServerError : Z := 500.

Definition rw_Set (key value : string) (w : ResponseWriter) : ResponseWriter :=
  mkResponseWriter (<[key := [value]]> (rw_header w)) (rw_status w) (rw_body w).

(** [WriteHeader]: the first call commits the status, later calls change
    nothing. *)
Definition rw_WriteHeader (code : Z) (w : ResponseWriter) : ResponseWriter :=
  match rw_status w with
  | Some _ => w
  | None => mkResponseWriter (rw_header w) (Some code) (rw_body w)
  end.

(** [Write]: commits [StatusOK] when no status was committed, then appends. *)
Definition rw_Write (data : string) (w : ResponseWriter) : ResponseWriter :=
  let w' := rw_WriteHeader StatusOK w in
  mkResponseWriter (rw_header w') (rw_status w') (rw_body w' +:+ data).

(** [http.Error]. *)
Definition rw_Error (error : string) (code : Z) (w : ResponseWriter)
  : ResponseWriter :=
  rw_Write (error +:+ nl)
    (rw_WriteHeader code
      (rw_Set "X-Content-Type-Options" "nosniff"
        (rw_Set "Content-Type" "text/plain; charset=utf-8" w))).

(** The value a goroutine panics with: one that implements [error] (with its
    [Error()] text) or any other value. *)
Inductive PanicValue :=
| PanicError (msg : string)
| PanicOther (v : string).

Inductive Outcome (A : Type) :=
| Returned (a : A)
| Panicked (v : PanicValue).
Arguments Returned {A} a.
Arguments Panicked {A} v.

(** What a request can change: the response writer and the list of names
    handed to [os.Open], oldest first. *)
Record World := mkWorld {
  w_resp : ResponseWriter;
  w_opened : list string
}.

(** Handler code: a state transformer that returns or panics. *)
Definition M (A : Type) : Type := World -> Outcome A * World.

Definition ret {A} (a : A) : M A := fun s => (Returned a, s).

Definition bind {A B} (m : M A) (k : A -> M B) : M B :=
  fun s =>
    match m s with
    | (Returned a, s') => k a s'
    | (Panicked v, s') => (Panicked v, s')
    end.

Notation "x <- m ;; k" := (bind m (fun x => k))
  (at level 100, m at next level, right associativity).
Notation "m ;;; k" := (bind m (fun _ => k))
  (at level 100, right associativity).

Definition panic {A} (v : PanicValue) : M A := fun s => (Panicked v, s).

Definition on_writer (f : ResponseWriter -> ResponseWriter) : M unit :=
  fun s => (Returned tt, mkWorld (f (w_resp s)) (w_opened s)).

Definition Header_Set (key value : string) : M unit := on_writer (rw_Set key value).
Definition WriteHeader (code : Z) : M unit := on_writer (rw_WriteHeader code).
Definition Fprintf (text : string) : M unit := on_writer (rw_Write text).
Definition http_Error (error : string) (code : Z) : M unit :=
  on_writer (rw_Error error code).
Definition http_NotFound : M unit := http_Error "404 page not found" StatusNotFound.

(** [for _, x := range xs { body }]. *)
Fixpoint for_range {A} (xs : list A) (body : A -> M unit) : M unit :=
  match xs with
  | [] => ret tt
  | x :: xs' => body x ;;; for_range xs' body
  end.

(** [os.Open]: the name is recorded, the file system answers. *)
Definition os_Open (os : FileSystem) (name : string) : M (option File) :=
  fun s => (Returned (os name), mkWorld (w_resp s) (w_opened s ++ [name])%list).

(** [http.Dir(d).Open(name)]: a name with a NUL byte is refused; otherwise
    the name is cleaned as a rooted path and opened below [d]. *)
Definition Dir_fullName (d name : string) : string :=
  let dir := if String.eqb d "" then "." else d in
  Path.Join [dir; Path.Clean ("/" +:+ name)].

Definition Dir_Open (os : FileSystem) (d name : string) : M (option File) :=
  if Path.contains_nul name then ret None
  else os_Open os (Dir_fullName d name).

(** ** What the server takes from the Go runtime and libraries

    The operations of the standard library whose results the server only
    passes on. [time_Parse] is [time.Parse(http.TimeFormat, s)] ([None] for a
    parse error; the empty string is not a date), [time_Format] is
    [t.UTC().Format(http.TimeFormat)], [http_ServeContent] the content
    transmitter, [basic_decode] the decoding of an [Authorization] header
    value of the Basic scheme into user name and password. *)
Class Runtime := {
  strings_ToLower : string -> string;
  time_Parse : string -> option Time;
  time_Parse_empty : time_Parse "" = None;
  time_Format : Time -> string;
  http_ServeContent : Request -> string -> Time -> File -> M unit;
  basic_decode : string -> option (string * string)
}.

(** ** Package [sort] *)

Class sort_Interface (T : Type) := {
  Len : T -> nat;
  Less : T -> nat -> nat -> bool;
  Swap : T -> nat -> nat -> T
}.

(** The inner loop of [insertionSort]:
    [for j := i; j > a && data.Less(j, j-1); j-- { data.Swap(j, j-1) }]. *)
Fixpoint insert_down {T} `{sort_Interface T} (a : nat) (data : T) (j : nat) : T :=
  match j with
  | O => data
  | S j' =>
      if (a <? j)%nat && Less data j j' then insert_down a (Swap data j j') j'
      else data
  end.

(** [for i := a + 1; i < b; i++ { ... }]. *)
Definition insertionSort {T} `{sort_Interface T} (data : T) (a b : nat) : T :=
  fold_left (insert_down a) (seq (a + 1) (b - (a + 1))) data.

(** [sort.Sort]. The library sorts short slices by insertion and long ones
    by a hybrid of quick sort and heap sort; none is stable. The insertion
    sort stands for all of them: the results differ at most in the order of
    elements neither of which is [Less] than the other. *)
Definition sort_Sort {T} `{sort_Interface T} (data : T) : T :=
  insertionSort data 0 (Len data).

(** ** The server *)

Definition idstring : string := "http://golang.org/pkg/http/#ListenAndServe".

Definition inspect {A} (a : A) : {b : A | a = b} := exist _ a eq_refl.

(** One [Readdir(n)] with [n > 0] over what is left of the directory: up to
    [n] entries, whether a read failed, and the rest. *)
Fixpoint read_batch (n : nat) (s : list (option FileInfo))
  : list FileInfo * bool * list (option FileInfo) :=
  match n, s with
  | S n', Some d :: s' =>
      let '(ds, failed, rest) := read_batch n' s' in (d :: ds, failed, rest)
  | S n', None :: s' => ([], true, s')
  | _, _ => ([], false, s)
  end.

(** [f.Readdir(n)]: the entries read, whether the error is non-nil (a failed
    read, or [io.EOF] with an empty result), and the handle afterwards. *)
Definition Readdir (f : File) (n : nat) : list FileInfo * bool * File :=
  let '(dirs, failed, rest) := read_batch n (f_dir f) in
  (dirs, failed || (length dirs =? 0)%nat, mkFile (f_stat f) rest (f_data f)).

Section Server.

Context `{RT : Runtime}.

(** [type sortedFiles []os.FileInfo] with its three methods. Go panics on an
    index out of range; [sort.Sort] never passes one. *)
Definition sortedFiles := list FileInfo.

Definition sortedFiles_Less (s : sortedFiles) (i j : nat) : bool :=
  match s !! i, s !! j with
  | Some si, Some sj =>
      String.ltb (strings_ToLower (Name si)) (strings_ToLower (Name sj))
  | _, _ => false
  end.

Definition sortedFiles_Swap (s : sortedFiles) (i j : nat) : sortedFiles :=
  match s !! i, s !! j with
  | Some si, Some sj => <[i := sj]> (<[j := si]> s)
  | _, _ => s
  end.

#[export] Instance sortedFiles_sort : sort_Interface sortedFiles := {
  Len s := length s;
  Less := sortedFiles_Less;
  Swap := sortedFiles_Swap
}.

(** The loop of [sortedDirList]:
    [for { dirs, err := f.Readdir(100); if err != nil || len(dirs) == 0 { break }; sdirs = append(sdirs, dirs...) }]. *)
Equations? readdir_loop (f : File) (sdirs : sortedFiles) : sortedFiles
  by wf (length (f_dir f)) lt :=
  readdir_loop f sdirs with inspect (Readdir f 100) => {
    | exist _ (dirs, err, f') Hread with inspect (err || (length dirs =? 0)%nat) => {
        | exist _ true _ := sdirs;
        | exist _ false Hgo := readdir_loop f' (sdirs ++ dirs)%list } }.
Proof.
  unfold Readdir in Hread.
  destruct (read_batch 100 (f_dir f)) as [[ds failed] rest] eqn:Hb.
  injection Hread as <- <- <-. simpl.
  apply orb_false_elim in Hgo as [_ Hlen].
  apply Nat.eqb_neq in Hlen.
  assert (Hle : forall n s ds failed rest,
             read_batch n s = (ds, failed, rest) ->
             (length ds + length rest <= length s)%nat).
  { clear. induction n as [|n IH]; intros s ds failed rest Hb.
    - simpl in Hb. destruct s; injection Hb as <- <- <-; simpl; lia.
    - destruct s as [|[d|] s']; simpl in Hb.
      + injection Hb as <- <- <-. simpl. lia.
      + destruct (read_batch n s') as [[ds' failed'] rest'] eqn:Hb'.
        injection Hb as <- <- <-. apply IH in Hb'. simpl. lia.
      + injection Hb as <- <- <-. simpl. lia. }
  apply Hle in Hb. lia.
Defined.

Definition entry_name (d : FileInfo) : string :=
  if IsDir d then Name d +:+ "/" else Name d.

Definition entry_line (d : FileInfo) : string :=
  let name := entry_name d in
  "<a href=" +:+ dq +:+ name +:+ dq +:+ ">" +:+ name +:+ "</a>" +:+ nl.

Definition sortedDirList (f : File) : M unit :=
  Header_Set "Content-Type" "text/html; charset=utf-8" ;;;
  Fprintf ("<pre>" +:+ nl) ;;;
  let sdirs := readdir_loop f [] in
  let sdirs := sort_Sort sdirs in
  for_range sdirs (fun d => Fprintf (entry_line d)) ;;;
  Fprintf ("</pre>" +:+ nl).

(** The result is whether the request is now complete. *)
Definition checkLastModified (r : Request) (modtime : Time) : M bool :=
  if Time_IsZero modtime then ret false
  else
    let unmodified :=
      match time_Parse (Header_Get (Header r) "If-Modified-Since") with
      | Some t => Time_Before modtime (Time_Add t (1 * time_Second))
      | None => false
      end in
    if unmodified then
      WriteHeader StatusNotModified ;;; ret true
    else
      Header_Set "Last-Modified" (time_Format modtime) ;;; ret false.

Definition indexPage : string := "/index.html".

(** [fs] is the directory an [http.Dir] serves from. The deferred [Close]
    calls change neither the response nor what was read and are left out. *)
Definition serveFile (os : FileSystem) (r : Request) (fs : string) (name : string)
  : M unit :=
  opened <- Dir_Open os fs name ;;
  match opened with
  | None => http_NotFound
  | Some f =>
      match f_stat f with
      | None => http_NotFound
      | Some d =>
          eff <-
            (if IsDir d then
               let index := name +:+ indexPage in
               opened' <- Dir_Open os fs index ;;
               match opened' with
               | Some ff =>
                   match f_stat ff with
                   | Some dd => ret (dd, ff)
                   | None => ret (d, f)
                   end
               | None => ret (d, f)
               end
             else ret (d, f)) ;;
          let '(d, f) := eff in
          if IsDir d then
            done <- checkLastModified r (ModTime d) ;;
            if done then ret tt else sortedDirList f
          else
            http_ServeContent r (Name d) (ModTime d) f
      end
  end.

Definition myFileServer (os : FileSystem) (rootdir : string)
  (r : Request) (url : string) : M unit :=
  let '(dir, file) := Path.Split (Path.Join [rootdir; url]) in
  serveFile os r dir file.

(** *** Package [github.com/mpl/basicauth] *)

Record UserPass := mkUserPass {
  Username : string;
  Password : string
}.

(** Modelled from the spec: [basicauth.New] is not part of the sources. It
    builds the single credential from the string [username:password]; the
    string is cut at its first colon, and one without a colon is an error. *)
Fixpoint basicauth_New (userpass : string) : option UserPass :=
  match userpass with
  | EmptyString => None
  | String c rest =>
      if Ascii.eqb c ":" then Some (mkUserPass "" rest)
      else match basicauth_New rest with
           | Some up => Some (mkUserPass (String c (Username up)) (Password up))
           | None => None
           end
  end.

(** Modelled from the spec: [UserPass.IsAllowed] is not part of the
    sources. A request is allowed when its Basic-Auth header decodes to the
    credential. *)
Definition IsAllowed (up : UserPass) (r : Request) : bool :=
  match basic_decode (Header_Get (Header r) "Authorization") with
  | Some (user, pass) =>
      String.eqb user (Username up) && String.eqb pass (Password up)
  | None => false
  end.

(** Modelled from the spec: [basicauth.SendUnauthorized] is not part of the
    sources. It answers with a [WWW-Authenticate] challenge that names the
    realm and with the status 401. *)
Definition SendUnauthorized (r : Request) (realm : string) : M unit :=
  Header_Set "WWW-Authenticate" ("Basic realm=" +:+ dq +:+ realm +:+ dq) ;;;
  WriteHeader StatusUnauthorized.

(** *** The handler boundary *)

(** The deferred function of [makeHandler]: [recover()] stops any panic; when
    the recovered value is an [error] the 500 answer is written, otherwise
    (another value, or [nil] when nothing panicked) nothing is done. *)
Definition recover_error (body : M unit) : M unit :=
  fun s =>
    match body s with
    | (Returned _, s') => (Returned tt, s')
    | (Panicked (PanicError e), s') =>
        http_Error e StatusInternalServerError s'
    | (Panicked (PanicOther _), s') => (Returned tt, s')
    end.

Definition makeHandler (up : UserPass) (fn : Request -> string -> M unit)
  (r : Request) : M unit :=
  recover_error
    (let title := URL_Path r in
     Header_Set "Server" idstring ;;;
     if IsAllowed up r then fn r title
     else SendUnauthorized r "simpleHttpd").

End Server.

(** ** Credentials *)

(** [crypto/rand.Read(buf)] over a source that can still supply the bytes
    [src]: the buffer is filled, or the source runs dry and the read reports
    how far it got together with an error. *)
Definition rand_Read (src : list byte) (size : nat)
  : (list byte * nat * option string) * list byte :=
  if (size <=? length src)%nat then
    ((take size src, size, None), drop size src)
  else
    ((src ++ replicate (size - length src) Byte.x00, length src,
      Some "unexpected EOF")%list, []).

Definition hex_digit (n : N) : ascii :=
  match String.get (N.to_nat n) "0123456789abcdef" with
  | Some c => c
  | None => "0"%char
  end.

Definition hex_byte (b : byte) : string :=
  let n := Byte.to_N b in
  String (hex_digit (n / 16)) (String (hex_digit (n mod 16)) EmptyString).

(** [fmt.Sprintf("%x", buf)]. *)
Fixpoint Sprintf_x (buf : list byte) : string :=
  match buf with
  | [] => ""
  | b :: buf' => hex_byte b +:+ Sprintf_x buf'
  end.

(** A token or the error. *)
Definition randToken (size : nat) (src : list byte)
  : (string + string) * list byte :=
  let '((buf, n, err), src') := rand_Read src size in
  match err with
  | Some e => (inr ("failed to get some randomness: " +:+ e), src')
  | None =>
      if negb (n =? length buf)%nat
      then (inr "failed to get some randomness: <nil>", src')
      else (inl (Sprintf_x buf), src')
  end.

(** How [initUserPass] ends: [log.Fatal] exits the process, or the credential
    is set and the two lines are printed. *)
Inductive Startup :=
| Fatal (err : string)
| Ready (up : UserPass) (printed : list string).

Definition initUserPass (src : list byte) : Startup :=
  match randToken 20 src with
  | (inr err, _) => Fatal err
  | (inl user, src1) =>
      match randToken 20 src1 with
      | (inr err, _) => Fatal err
      | (inl pass, _) =>
          match basicauth_New (user +:+ ":" +:+ pass) with
          | None => Fatal "wrong userpass"
          | Some up => Ready up ["user: " +:+ user; "password: " +:+ pass]
          end
      end
  end.

(** ** A small runtime and file system to run the model on *)

Module Sample.

Definition lower_ascii (c : ascii) : ascii :=
  let n := nat_of_ascii c in
  if ((65 <=? n) && (n <=? 90))%nat then ascii_of_nat (n + 32) else c.

(** [strings.ToLower] on ASCII strings. *)
Fixpoint ToLower (s : string) : string :=
  match s with
  | EmptyString => EmptyString
  | String c s' => String (lower_ascii c) (ToLower s')
  end.

Definition epoch1970 : Time := 62135596800 * time_Second.
Definition nov1994 : Time := 62919708577 * time_Second.

(** A few values of [time.Parse(http.TimeFormat, s)]; every other string is
    treated as malformed. *)
Definition Parse (s : string) : option Time :=
  if String.eqb s "Thu, 01 Jan 1970 00:00:00 GMT" then Some epoch1970
  else if String.eqb s "Sun, 06 Nov 1994 08:49:37 GMT" then Some nov1994
  else None.

(** A few values of [t.UTC().Format(http.TimeFormat)], to the second. *)
Definition Format (t : Time) : string :=
  if t / time_Second =? 62135596800 then "Thu, 01 Jan 1970 00:00:00 GMT"
  else if t / time_Second =? 62919708577 then "Sun, 06 Nov 1994 08:49:37 GMT"
  else "".

(** Stands for [http.ServeContent]: the bytes are sent as they are;
    conditional requests, ranges and content types are left out. *)
Definition ServeContent (r : Request) (name : string) (modtime : Time) (f : File)
  : M unit :=
  Fprintf (f_data f).

(** A few values of the Basic-Auth decoding: the base64 forms of [u:p],
    [u:q] and [v:p]. *)
Definition decode (authorization : string) : option (string * string) :=
  if String.eqb authorization "Basic dTpw" then Some ("u", "p")
  else if String.eqb authorization "Basic dTpx" then Some ("u", "q")
  else if String.eqb authorization "Basic djpw" then Some ("v", "p")
  else None.

#[export] Instance runtime : Runtime := {
  strings_ToLower := ToLower;
  time_Parse := Parse;
  time_Parse_empty := eq_refl;
  time_Format := Format;
  http_ServeContent := ServeContent;
  basic_decode := decode
}.

Definition file (name data : string) (modtime : Time) : File :=
  mkFile (Some (mkFileInfo name false modtime)) [] data.

Definition dir (name : string) (modtime : Time) (entries : list (option FileInfo))
  : File :=
  mkFile (Some (mkFileInfo name true modtime)) entries "".

Definition a_txt := mkFileInfo "a.txt" false nov1994.
Definition B_txt := mkFileInfo "B.txt" false nov1994.
Definition c_dir := mkFileInfo "c" true nov1994.
Definition docs_dir := mkFileInfo "docs" true nov1994.
Definition odd_dir := mkFileInfo "odd" true nov1994.
Definition index_file := mkFileInfo "index.html" false epoch1970.
Definition index_dir := mkFileInfo "index.html" true epoch1970.
Definition readme := mkFileInfo "README" false nov1994.

(** The handle of the root directory. *)
Definition www : File :=
  dir "www" nov1994
    [Some c_dir; Some B_txt; Some docs_dir; Some a_txt; Some odd_dir].

(** The tree below [/srv/www]: [a.txt], [B.txt], the empty directory [c],
    [docs] with a regular [index.html], [odd] whose [index.html] is a
    directory holding [README]; and [/etc/passwd] outside of it. *)
Definition disk : FileSystem := fun name =>
  if String.eqb name "/srv/www" then Some www
  else if String.eqb name "/srv/www/a.txt" then Some (file "a.txt" "alpha" nov1994)
  else if String.eqb name "/srv/www/B.txt" then Some (file "B.txt" "beta" nov1994)
  else if String.eqb name "/srv/www/c" then Some (dir "c" nov1994 [])
  else if String.eqb name "/srv/www/docs" then
    Some (dir "docs" nov1994 [Some index_file])
  else if String.eqb name "/srv/www/docs/index.html" then
    Some (file "index.html" "<h1>docs</h1>" epoch1970)
  else if String.eqb name "/srv/www/odd" then
    Some (dir "odd" nov1994 [Some index_dir])
  else if String.eqb name "/srv/www/odd/index.html" then
    Some (dir "index.html" epoch1970 [Some readme])
  else if String.eqb name "/etc/passwd" then
    Some (file "passwd" "root:x:0:0" epoch1970)
  else None.

Definition rootdir : string := "/srv/www".

Definition GET (path : string) : Request := mkRequest "GET" path ∅.

Definition GET_auth (path authorization : string) : Request :=
  mkRequest "GET" path {[ "Authorization" := [authorization] ]}.

Definition GET_since (path since : string) : Request :=
  mkRequest "GET" path {[ "If-Modified-Since" := [since] ]}.

Definition since1994 : Request :=
  GET_since "/a.txt" "Sun, 06 Nov 1994 08:49:37 GMT".

(** A [CONNECT] request: the server multiplexer hands its path to the
    handler as it came, without cleaning it. *)
Definition CONNECT_auth (path authorization : string) : Request :=
  mkRequest "CONNECT" path {[ "Authorization" := [authorization] ]}.

Definition up : UserPass := mkUserPass "u" "p".

(** A directory handle whose second entry cannot be read. *)
Definition unreadable : File :=
  dir "private" nov1994 [Some a_txt; None; Some B_txt].

(** A handler that panics at once. *)
Definition panics (v : PanicValue) : Request -> string -> M unit :=
  fun _ _ => panic v.

(** A handler that has begun its answer when it panics. *)
Definition writes_then_panics (v : PanicValue) : Request -> string -> M unit :=
  fun _ _ => Fprintf "<pre>" ;;; panic v.

(** A file system with nothing in it. *)
Definition blank : FileSystem := fun _ => None.

Definition fresh : World := mkWorld (mkResponseWriter ∅ None "") [].

(** The state after [name] has been handed to [os.Open], and after a second
    name has. *)
Definition opened1 (name : string) : World := mkWorld (w_resp fresh) [name].
Definition opened2 (name index : string) : World :=
  mkWorld (w_resp fresh) [name; index].

End Sample.

(** ** Start-up: [usage], [randPort] and [main] *)

Definition tab : string := String (ascii_of_nat 9) EmptyString.

(** The command line after [flag.Parse]: the values of the three flags and
    the number of arguments left over. *)
Record Flags := mkFlags {
  flagHost : string;
  flagDie : Z;
  flagHelp : bool;
  NArg : nat
}.

(** What the network answers to [randPort]: the errors of [ResolveTCPAddr],
    [ListenTCP] and [Close] ([None] for nil) and the port of the listener's
    address. *)
Record Network := mkNetwork {
  net_resolve : option string;
  net_listen : option string;
  net_close : option string;
  net_port : Z
}.

Definition randPort (net : Network) : Z * option string :=
  let port := 0 in
  match net_resolve net with
  | Some err => (port, Some err)
  | None =>
      match net_listen net with
      | Some err =>
          (port, Some ("could not listen to find random port: " +:+ err))
      | None =>
          match net_close net with
          | Some err =>
              (port, Some ("could not close random listener: " +:+ err))
          | None => (net_port net, None)
          end
      end
  end.

(** What the process writes: with [println] and [Fprintf(os.Stderr, ...)] to
    standard error, with [fmt.Printf] to standard output, and through the
    [log] package (the text after the time stamp). *)
Inductive Output :=
| Stderr (text : string)
| Stdout (text : string)
| Logged (text : string).

(** How far [main] gets: the process exits with a status, or [main] calls
    [http.ListenAndServeTLS] with the handler [makeHandler(myFileServer)]
    registered for [/] and the timer of the lifetime running. What happens
    from there on depends on the server and on the timer and is left out. *)
Inductive Process :=
| Exit (code : Z) (written : list Output)
| Serving (up : UserPass) (hostPort certFile keyFile : string) (die : Z)
    (written : list Output).

Definition certFile (home : string) : string := Path.Join [home; "keys"; "cert.pem"].
Definition keyFile (home : string) : string := Path.Join [home; "keys"; "key.pem"].

Section Startup.

(** The text of [flag.PrintDefaults] and the [%v] form of a duration. *)
Variable defaults : string.
Variable Duration_String : Z -> string.

Definition usage : Process :=
  Exit 2 [Stderr (tab +:+ " fafserver " +:+ nl); Stderr defaults].

(** [home] is the value of the environment variable [HOME]. *)
Definition main (flags : Flags) (src : list byte) (net : Network) (home : string)
  : Process :=
  if flagHelp flags then usage
  else if (0 <? NArg flags)%nat then usage
  else
    match initUserPass src with
    | Fatal err => Exit 1 [Logged err]
    | Ready up printed =>
        let written := map (fun line => Stderr (line +:+ nl)) printed in
        match randPort net with
        | (_, Some err) => Exit 1 (written ++ [Logged err])%list
        | (port, None) =>
            let hostPort := flagHost flags +:+ ":" +:+ pretty port in
            Serving up hostPort (certFile home) (keyFile home) (flagDie flags)
              (written ++
               [Stderr ("Starting to listen on: https://" +:+ hostPort +:+ nl);
                Stdout ("Server will die in "
                        +:+ Duration_String (flagDie flags) +:+ nl)])%list
        end
    end.

End Startup.

(** A command line, a network and a duration text to run [main] on. *)
Module SampleStartup.

Definition plain : Flags := mkFlags "localhost" 86400000000000 false 0.
Definition free_port : Network := mkNetwork None None None 40123.
Definition busy : Network := mkNetwork None (Some "address already in use") None 0.
Definition defaults : string := "  -die duration".
Definition Duration_String (d : Z) : string :=
  if d =? 86400000000000 then "24h0m0s" else "".

End SampleStartup.

(** ** Notions used in the statements *)

Definition challenge (realm : string) : string :=
  "Basic realm=" +:+ dq +:+ realm +:+ dq.

(** The response writer after the handler has refused a request. *)
Definition unauthorized_answer (w : ResponseWriter) : ResponseWriter :=
  rw_WriteHeader StatusUnauthorized
    (rw_Set "WWW-Authenticate" (challenge "simpleHttpd")
      (rw_Set "Server" idstring w)).

(** The state in which [makeHandler] calls the handler it wraps. *)
Definition server_header (s : World) : World :=
  mkWorld (rw_Set "Server" idstring (w_resp s)) (w_opened s).

(** The check answers "not modified": it reports the request complete and
    has called [WriteHeader(StatusNotModified)], writing no body. *)
Definition answers_not_modified (s : World) (run : Outcome bool * World) : Prop :=
  fst run = Returned true /\
  w_resp (snd run) = rw_WriteHeader StatusNotModified (w_resp s) /\
  rw_body (w_resp (snd run)) = rw_body (w_resp s) /\
  w_opened (snd run) = w_opened s.

(** The check lets the caller go on: it reports the request not complete and
    has committed no status and written no body. *)
Definition lets_proceed (s : World) (run : Outcome bool * World) : Prop :=
  fst run = Returned false /\
  rw_status (w_resp (snd run)) = rw_status (w_resp s) /\
  rw_body (w_resp (snd run)) = rw_body (w_resp s) /\
  w_opened (snd run) = w_opened s.

(** Lower-case hexadecimal text. *)
Definition is_hex (c : ascii) : bool :=
  existsb (Ascii.eqb c) (list_ascii_of_string "0123456789abcdef").

Definition all_hex (s : string) : Prop :=
  forallb is_hex (list_ascii_of_string s) = true.

(** The order of a listing: the lower-cased names compared as byte strings. *)
Definition lower_le `{RT : Runtime} (a b : FileInfo) : Prop :=
  (strings_ToLower (Name a) ≤ strings_ToLower (Name b))%string.




(** The text of a listing and the response writer after it was sent. *)
Definition listing_text (shown : list FileInfo) : string :=
  ("<pre>" +:+ nl) +:+ String.concat "" (map entry_line shown) +:+ ("</pre>" +:+ nl).


(** The full name [myFileServer] hands to [os.Open] for a request path, and
    the one it tries for the index page of a directory. *)
Definition resolved (rootdir url : string) : string :=
  let '(dir, file) := Path.Split (Path.Join [rootdir; url]) in
  Dir_fullName dir file.

Definition resolved_index (rootdir url : string) : string :=
  let '(dir, file) := Path.Split (Path.Join [rootdir; url]) in
  Dir_fullName dir (file +:+ indexPage).

(** A path element that is a name: not empty, not ["."], not [".."], and
    without a separator. *)
Fixpoint no_slash (s : string) : bool :=
  match s with
  | EmptyString => true
  | String c s' => negb (Ascii.eqb c "/") && no_slash s'
  end.

Definition is_name (e : string) : bool :=
  no_slash e && negb (String.eqb e "") && negb (String.eqb e ".")
    && negb (String.eqb e "..").

(** Walking the elements of a request path from depth [depth]: no [".."]
    climbs above the place the walk started at. *)
Fixpoint stays_below_from (depth : nat) (elems : list string) : bool :=
  match elems with
  | [] => true
  | e :: rest =>
      if String.eqb e "" || String.eqb e "." then stays_below_from depth rest
      else if String.eqb e ".." then
        match depth with
        | O => false
        | S depth' => stays_below_from depth' rest
        end
      else stays_below_from (S depth) rest
  end.

Definition stays_below (url : string) : bool :=
  stays_below_from 0 (Path.split_slash url).

(** The rooted path with the given elements. *)
Definition rooted_path (names : list string) : string :=
  "/" +:+ String.concat "/" names.

(** ** Notions used in the proofs *)


(** A path whose elements are names or empty. *)
Definition tame (path : string) : Prop :=
  Forall (fun e => e = "" \/ is_name e = true) (Path.split_slash path).

(** The directory part of the rooted path with the elements [l] and one
    more. *)
Definition parent (l : list string) : string :=
  match l with
  | [] => ""
  | _ => rooted_path l
  end.

(** ** Notions used in the further properties *)

(** The index page of a directory cannot be used: it does not open, or it
    opens and its [Stat] fails. [s1] is the state before the attempt and
    [s2] the state after it. *)
Definition index_unusable (os : FileSystem) (fs name : string) (s1 s2 : World)
  : Prop :=
  Dir_Open os fs (name +:+ indexPage) s1 = (Returned None, s2) \/
  exists ff, Dir_Open os fs (name +:+ indexPage) s1 = (Returned (Some ff), s2) /\
             f_stat ff = None.

(** The answer "not found" on a response writer. *)
Definition not_found_answer (w : ResponseWriter) : ResponseWriter :=
  rw_Error "404 page not found" StatusNotFound w.

(** Reading hexadecimal text back into bytes. *)
Definition unhex_digit (c : ascii) : option N :=
  match String.index 0 (String c EmptyString) "0123456789abcdef" with
  | Some i => Some (N.of_nat i)
  | None => None
  end.

Fixpoint unhex (s : string) : option (list byte) :=
  match s with
  | EmptyString => Some []
  | String c1 (String c2 rest) =>
      match unhex_digit c1, unhex_digit c2, unhex rest with
      | Some h, Some l, Some bs =>
          match Byte.of_N (16 * h + l) with
          | Some b => Some (b :: bs)
          | None => None
          end
      | _, _, _ => None
      end
  | String _ EmptyString => None
  end.

(** * Facts about byte strings *)

Lemma string_app_nil_l (s : string) : "" +:+ s = s.
Proof. reflexivity. Qed.

Lemma string_app_cons c (s t : string) : String c s +:+ t = String c (s +:+ t).
Proof. reflexivity. Qed.

Lemma string_app_nil_r (s : string) : s +:+ "" = s.
Proof.
  induction s as [|c s IH]; [done|]. by rewrite string_app_cons, IH.
Qed.

Lemma string_app_assoc (s t u : string) : (s +:+ t) +:+ u = s +:+ (t +:+ u).
Proof.
  induction s as [|c s IH]; [done|]. by rewrite !string_app_cons, IH.
Qed.

(** * The path functions on the cases of the library's test table *)

Example Clean_empty : Path.Clean "" = ".". Proof. reflexivity. Qed.
Example Clean_already_clean : Path.Clean "abc/def" = "abc/def". Proof. reflexivity. Qed.
Example Clean_dot : Path.Clean "." = ".". Proof. reflexivity. Qed.
Example Clean_dotdot : Path.Clean "../.." = "../..". Proof. reflexivity. Qed.
Example Clean_dotdot_name : Path.Clean "../../abc" = "../../abc". Proof. reflexivity. Qed.
Example Clean_root : Path.Clean "/" = "/". Proof. reflexivity. Qed.
Example Clean_trailing_slash : Path.Clean "abc/def/" = "abc/def". Proof. reflexivity. Qed.
Example Clean_dot_slash : Path.Clean "./" = ".". Proof. reflexivity. Qed.
Example Clean_dotdot_slash : Path.Clean "../../" = "../..". Proof. reflexivity. Qed.
Example Clean_doubled_slash : Path.Clean "abc//def//ghi" = "abc/def/ghi". Proof. reflexivity. Qed.
Example Clean_leading_slashes : Path.Clean "///abc" = "/abc". Proof. reflexivity. Qed.
Example Clean_slashes_around : Path.Clean "//abc//" = "/abc". Proof. reflexivity. Qed.
Example Clean_inner_dot : Path.Clean "abc/./def" = "abc/def". Proof. reflexivity. Qed.
Example Clean_rooted_dot : Path.Clean "/./abc/def" = "/abc/def". Proof. reflexivity. Qed.
Example Clean_final_dot : Path.Clean "abc/." = "abc". Proof. reflexivity. Qed.
Example Clean_inner_dotdot : Path.Clean "abc/def/ghi/../jkl" = "abc/def/jkl". Proof. reflexivity. Qed.
Example Clean_two_dotdot : Path.Clean "abc/def/../ghi/../jkl" = "abc/jkl". Proof. reflexivity. Qed.
Example Clean_to_dot : Path.Clean "abc/def/../.." = ".". Proof. reflexivity. Qed.
Example Clean_to_root : Path.Clean "/abc/def/../.." = "/". Proof. reflexivity. Qed.
Example Clean_above_start : Path.Clean "abc/def/../../.." = "..". Proof. reflexivity. Qed.
Example Clean_above_root : Path.Clean "/abc/def/../../.." = "/". Proof. reflexivity. Qed.
Example Clean_long :
  Path.Clean "abc/def/../../../ghi/jkl/../../../mno" = "../../mno".
Proof. reflexivity. Qed.
Example Clean_mixed : Path.Clean "abc/../../././../def" = "../../def". Proof. reflexivity. Qed.
Example Clean_doc : Path.Clean "a//b/./c/.." = "a/b". Proof. reflexivity. Qed.

Example Join_root_and_path : Path.Join ["/srv/www"; "/a/../b"] = "/srv/www/b".
Proof. reflexivity. Qed.
Example Join_skips_empty : Path.Join [""; "/x/"] = "/x". Proof. reflexivity. Qed.
Example Join_all_empty : Path.Join [""; ""] = "". Proof. reflexivity. Qed.
Example Join_doc : Path.Join ["a"; ""] = "a". Proof. reflexivity. Qed.

Example Split_file : Path.Split "/srv/www/b" = ("/srv/www/", "b"). Proof. reflexivity. Qed.
Example Split_root : Path.Split "/" = ("/", ""). Proof. reflexivity. Qed.
Example Split_no_separator : Path.Split "abc" = ("", "abc"). Proof. reflexivity. Qed.
Example Split_trailing_slash : Path.Split "a/b/" = ("a/b/", ""). Proof. reflexivity. Qed.

Example Dir_fullName_confined : Dir_fullName "/srv/" "../../etc/passwd" = "/srv/etc/passwd".
Proof. reflexivity. Qed.
Example Dir_fullName_current : Dir_fullName "" "a/b" = "a/b". Proof. reflexivity. Qed.

(** * The scenarios of the specification on the sample tree *)

Section Scenarios.

Import Sample.

(** A listing of the root: [a.txt], [B.txt], [c/], then [docs/] and [odd/],
    whatever order the directory is read in. *)
Example scenario_listing :
  rw_body (w_resp (snd (myFileServer disk rootdir (GET "/") "/" fresh)))
  = listing_text [a_txt; B_txt; c_dir; docs_dir; odd_dir].
Proof. reflexivity. Qed.

(** [/secret/../../etc/passwd] resolves to a sibling of the root; nothing is
    there in the sample tree. *)
Example scenario_traversal :
  resolved rootdir "/secret/../../etc/passwd" = "/srv/etc/passwd" /\
  rw_status (w_resp (snd (myFileServer disk rootdir
                            (GET "/secret/../../etc/passwd")
                            "/secret/../../etc/passwd" fresh)))
  = Some StatusNotFound.
Proof. split; reflexivity. Qed.

(** A directory asked again with the date of its [Last-Modified] header. *)
Example scenario_not_modified :
  rw_header (w_resp (snd (serveFile disk (GET "/c") "/srv/www/" "c" fresh)))
    !! "Last-Modified" = Some ["Sun, 06 Nov 1994 08:49:37 GMT"] /\
  serveFile disk (GET_since "/c" "Sun, 06 Nov 1994 08:49:37 GMT") "/srv/www/" "c" fresh
  = (Returned tt,
     mkWorld (mkResponseWriter ∅ (Some StatusNotModified) "")
             ["/srv/www/c"; "/srv/www/c/index.html"]).
Proof. split; reflexivity. Qed.

End Scenarios.

(** * Properties *)

(** ** The conditional-GET check *)

Section Freshness.

Context `{RT : Runtime}.

Lemma rw_WriteHeader_body code w : rw_body (rw_WriteHeader code w) = rw_body w.
Proof. unfold rw_WriteHeader. by destruct (rw_status w). Qed.

Lemma rw_WriteHeader_header code w :
  rw_header (rw_WriteHeader code w) = rw_header w.
Proof. unfold rw_WriteHeader. by destruct (rw_status w). Qed.

Lemma rw_WriteHeader_fresh code w :
  rw_status w = None -> rw_status (rw_WriteHeader code w) = Some code.
Proof. unfold rw_WriteHeader. by intros ->. Qed.

Lemma lets_proceed_not_complete s run :
  lets_proceed s run -> ~ answers_not_modified s run.
Proof. intros [Hf _] [Ht _]. congruence. Qed.

(** C4. For a non-zero modification time and an [If-Modified-Since] header
    that parses to [t], the check answers "not modified" (status 304
    through [WriteHeader], request complete, nothing written to the body)
    exactly when [modtime < t + 1s]; otherwise it lets the caller proceed. *)
Theorem checkLastModified_not_modified_iff
  (r : Request) (modtime t : Time) (s : World) :
  Time_IsZero modtime = false ->
  time_Parse (Header_Get (Header r) "If-Modified-Since") = Some t ->
  (answers_not_modified s (checkLastModified r modtime s)
     <-> modtime < t + time_Second) /\
  (~ modtime < t + time_Second ->
     lets_proceed s (checkLastModified r modtime s)) /\
  (rw_status (w_resp s) = None -> modtime < t + time_Second ->
     rw_status (w_resp (snd (checkLastModified r modtime s)))
       = Some StatusNotModified).
Proof.
  intros Hnz Hparse.
  unfold checkLastModified. rewrite Hnz, Hparse.
  unfold Time_Before, Time_Add. rewrite Z.mul_1_l.
  destruct (Z.ltb_spec modtime (t + time_Second)) as [Hlt | Hge].
  - split; [|split].
    + split; [done|]. intros _.
      unfold answers_not_modified; cbn.
      by rewrite rw_WriteHeader_body.
    + intros Hn. lia.
    + intros Hfresh _. cbn. by apply rw_WriteHeader_fresh.
  - assert (Hp : lets_proceed s
              ((Header_Set "Last-Modified" (time_Format modtime) ;;; ret false) s))
      by (unfold lets_proceed; cbn; done).
    split; [|split].
    + split; [|lia]. intros Hn. by apply lets_proceed_not_complete in Hp.
    + done.
    + lia.
Qed.

(** C5. When the [If-Modified-Since] header is unset, or does not parse as
    an HTTP date, or when the modification time is the zero time, the check
    never answers "not modified": it reports the request not complete,
    commits no status and writes no body, so the caller serves the content. *)
Theorem checkLastModified_never_short_circuits
  (r : Request) (modtime : Time) (s : World) :
  Header r !! "If-Modified-Since" = None \/
  time_Parse (Header_Get (Header r) "If-Modified-Since") = None \/
  Time_IsZero modtime = true ->
  lets_proceed s (checkLastModified r modtime s) /\
  ~ answers_not_modified s (checkLastModified r modtime s).
Proof.
  intros Hcase.
  assert (Hp : lets_proceed s (checkLastModified r modtime s)).
  { unfold checkLastModified.
    destruct (Time_IsZero modtime) eqn:Hz; [by unfold lets_proceed|].
    assert (Hparse : time_Parse (Header_Get (Header r) "If-Modified-Since") = None).
    { destruct Hcase as [Hunset | [Hbad | Hzero]]; [|done|congruence].
      unfold Header_Get. rewrite Hunset. apply time_Parse_empty. }
    rewrite Hparse. by unfold lets_proceed. }
  split; [done|]. by apply lets_proceed_not_complete.
Qed.

(** C8 (amended). When the check lets the caller proceed and the
    modification time is not the zero time, the [Last-Modified] header of the
    response is the modification time in UTC HTTP-date format, set before the
    check returns. *)
Theorem checkLastModified_sets_Last_Modified
  (r : Request) (modtime : Time) (s : World) :
  Time_IsZero modtime = false ->
  fst (checkLastModified r modtime s) = Returned false ->
  rw_header (w_resp (snd (checkLastModified r modtime s))) !! "Last-Modified"
    = Some [time_Format modtime].
Proof.
  intros Hnz. unfold checkLastModified. rewrite Hnz.
  destruct (match time_Parse _ with Some _ => _ | None => _ end); cbn.
  - discriminate.
  - intros _. apply lookup_insert_eq.
Qed.

End Freshness.

(** ** The handler boundary *)

Section Boundary.

Context `{RT : Runtime}.

Lemma makeHandler_unauthorized up fn r s :
  IsAllowed up r = false ->
  makeHandler up fn r s = (Returned tt, mkWorld (unauthorized_answer (w_resp s)) (w_opened s)).
Proof.
  intros Hno. unfold makeHandler, recover_error. cbn. by rewrite Hno.
Qed.

Lemma IsAllowed_header up r r' :
  Header r' = Header r -> IsAllowed up r' = IsAllowed up r.
Proof. unfold IsAllowed. by intros ->. Qed.

(** C6. A request whose Basic-Auth header does not decode to the credential
    gets the [WWW-Authenticate] challenge and, on a response with no status
    committed, the status 401. The answer is the same whatever the handler,
    the path, the method or the header that failed, so a wrong user and a
    wrong password are answered alike. *)
Theorem unauthorized_is_uniform
  (up : UserPass) (fn : Request -> string -> M unit) (r : Request) (s : World) :
  IsAllowed up r = false ->
  makeHandler up fn r s
    = (Returned tt, mkWorld (unauthorized_answer (w_resp s)) (w_opened s)) /\
  rw_header (unauthorized_answer (w_resp s)) !! "WWW-Authenticate"
    = Some [challenge "simpleHttpd"] /\
  (rw_status (w_resp s) = None ->
     rw_status (unauthorized_answer (w_resp s)) = Some StatusUnauthorized) /\
  (forall fn' r', IsAllowed up r' = false ->
     makeHandler up fn' r' s = makeHandler up fn r s).
Proof.
  intros Hno. split; [by apply makeHandler_unauthorized|].
  split; [|split].
  - unfold unauthorized_answer. rewrite rw_WriteHeader_header. cbn.
    apply lookup_insert_eq.
  - intros Hfresh. unfold unauthorized_answer. by apply rw_WriteHeader_fresh.
  - intros fn' r' Hno'. by rewrite !makeHandler_unauthorized.
Qed.

(** C10. A request that fails the Basic-Auth check causes no call of
    [os.Open]: the serving pipeline is not run. Its answer is therefore the
    same for any two file systems and roots, and for any other request path. *)
Theorem unauthorized_reads_nothing
  (up : UserPass) (os1 os2 : FileSystem) (root1 root2 : string)
  (r : Request) (path2 : string) (s : World) :
  IsAllowed up r = false ->
  w_opened (snd (makeHandler up (myFileServer os1 root1) r s)) = w_opened s /\
  makeHandler up (myFileServer os1 root1) r s
    = makeHandler up (myFileServer os2 root2)
        (mkRequest (Method r) path2 (Header r)) s.
Proof.
  intros Hno.
  assert (Hno2 : IsAllowed up (mkRequest (Method r) path2 (Header r)) = false)
    by (by rewrite (IsAllowed_header up r)).
  by rewrite !makeHandler_unauthorized.
Qed.

(** C7 (amended). The handler boundary stops every panic: the handler always
    returns. When the value of the panic is an [error], the boundary calls
    [http.Error] with its message and the status 500, so a response with no
    status committed becomes a 500 whose body ends with the message. *)
Theorem panic_is_stopped_at_boundary
  (up : UserPass) (fn : Request -> string -> M unit) (r : Request) (s : World) :
  (exists s', makeHandler up fn r s = (Returned tt, s')) /\
  (forall e s1,
     IsAllowed up r = true ->
     fn r (URL_Path r) (server_header s) = (Panicked (PanicError e), s1) ->
     makeHandler up fn r s
       = (Returned tt,
          mkWorld (rw_Error e StatusInternalServerError (w_resp s1)) (w_opened s1)) /\
     (rw_status (w_resp s1) = None ->
        rw_status (rw_Error e StatusInternalServerError (w_resp s1))
          = Some StatusInternalServerError /\
        rw_body (rw_Error e StatusInternalServerError (w_resp s1))
          = rw_body (w_resp s1) +:+ e +:+ nl)).
Proof.
  split.
  - unfold makeHandler, recover_error. cbn.
    destruct (IsAllowed up r).
    + destruct (fn r (URL_Path r) _) as [[[]|[e|v]] s1]; cbn; eauto.
    + cbn. eauto.
  - intros e s1 Hok Hpanic. split.
    + unfold makeHandler, recover_error. cbn. rewrite Hok.
      unfold server_header in Hpanic. by rewrite Hpanic.
    + intros Hfresh.
      unfold rw_Error, rw_Write, rw_WriteHeader, rw_Set; cbn.
      rewrite Hfresh; cbn. done.
Qed.

End Boundary.

(** ** Index substitution *)

Section Index.

Context `{RT : Runtime}.

(** C3 (amended). When the requested name opens to a directory and its
    [index.html] opens, stats, and is not itself a directory, the request is
    answered by the content transmitter on the index file, with the name and
    the modification time of the index file; nothing has been written to the
    response before, and no listing is produced. *)
Theorem index_is_served_as_file
  (os : FileSystem) (r : Request) (fs name : string)
  (f ff : File) (d dd : FileInfo) (s s1 s2 : World) :
  Dir_Open os fs name s = (Returned (Some f), s1) ->
  f_stat f = Some d ->
  IsDir d = true ->
  Dir_Open os fs (name +:+ indexPage) s1 = (Returned (Some ff), s2) ->
  f_stat ff = Some dd ->
  IsDir dd = false ->
  serveFile os r fs name s
    = http_ServeContent r (Name dd) (ModTime dd) ff s2 /\
  w_resp s2 = w_resp s.
Proof.
  intros Hopen Hstat Hdir Hopen' Hstat' Hfile. split.
  - unfold serveFile, bind at 1. rewrite Hopen, Hstat, Hdir.
    unfold bind at 1. unfold bind at 1. rewrite Hopen', Hstat'. cbn.
    by rewrite Hfile.
  - unfold Dir_Open, os_Open, ret in Hopen, Hopen'.
    destruct (Path.contains_nul name), (Path.contains_nul (name +:+ indexPage));
      by simplify_eq.
Qed.

End Index.

(** ** Credentials *)

Lemma hex_byte_spec b :
  exists c1 c2, hex_byte b = String c1 (String c2 EmptyString) /\
                is_hex c1 = true /\ is_hex c2 = true.
Proof. destruct b; do 2 eexists; (split; [reflexivity|split; reflexivity]). Qed.

Lemma Sprintf_x_length buf :
  String.length (Sprintf_x buf) = (2 * length buf)%nat.
Proof.
  induction buf as [|b buf IH]; [done|]. simpl Sprintf_x.
  destruct (hex_byte_spec b) as (c1 & c2 & -> & _).
  change (S (S (String.length (Sprintf_x buf))) = (2 * S (length buf))%nat).
  rewrite IH. lia.
Qed.

Lemma Sprintf_x_hex buf : all_hex (Sprintf_x buf).
Proof.
  unfold all_hex. induction buf as [|b buf IH]; [done|]. simpl Sprintf_x.
  destruct (hex_byte_spec b) as (c1 & c2 & -> & H1 & H2).
  change (is_hex c1 && (is_hex c2 &&
            forallb is_hex (list_ascii_of_string (Sprintf_x buf))) = true).
  by rewrite H1, H2, IH.
Qed.

Lemma basicauth_New_hex user pass :
  all_hex user ->
  basicauth_New (user +:+ ":" +:+ pass) = Some (mkUserPass user pass).
Proof.
  unfold all_hex. induction user as [|c user IH]; intros Hhex; [done|].
  simpl in Hhex. apply andb_prop in Hhex as [Hc Hrest].
  simpl. destruct (Ascii.eqb_spec c ":") as [-> | _]; [discriminate|].
  by rewrite IH.
Qed.

Lemma randToken_supplied size src :
  (size <= length src)%nat ->
  randToken size src = (inl (Sprintf_x (take size src)), drop size src).
Proof.
  intros Hle. unfold randToken, rand_Read.
  destruct (Nat.leb_spec size (length src)); [|lia].
  rewrite length_take, Nat.min_l by done. by rewrite Nat.eqb_refl.
Qed.

Lemma randToken_dry size src :
  (length src < size)%nat ->
  randToken size src
    = (inr "failed to get some randomness: unexpected EOF", []).
Proof.
  intros Hlt. unfold randToken, rand_Read.
  destruct (Nat.leb_spec size (length src)); [lia|done].
Qed.


(** ** The directory listing *)

Section Listing.

Context `{RT : Runtime}.

(** *** [sort.Sort] on [sortedFiles] as insertion into a sorted prefix *)










Lemma ltb_le a b : String.ltb a b = true -> (a ≤ b)%string.
Proof.
  unfold String.le, String.leb, String.ltb.
  by destruct (String.compare a b).
Qed.





(** *** The read loop *)

Lemma readdir_loop_step (f : File) (sdirs : sortedFiles) :
  readdir_loop f sdirs
  = let '(dirs, err, f') := Readdir f 100 in
    if err || (length dirs =? 0)%nat then sdirs
    else readdir_loop f' (sdirs ++ dirs)%list.
Proof.
  funelim (readdir_loop f sdirs); rewrite Hread; cbn;
    match goal with Hc : _ || _ = _ |- _ => by rewrite Hc end.
Qed.






End Listing.

Section ListingAnswer.

Context `{RT : Runtime}.






End ListingAnswer.

(** ** Path resolution *)

Section PathFacts.

Import Path.

Lemma split_slash_cons_inv s : exists e es, split_slash s = e :: es.
Proof.
  induction s as [|c s (e & es & IH)]; [by eexists _, _|]. simpl.
  destruct (Ascii.eqb c "/"); [by eexists _, _|]. rewrite IH. by eexists _, _.
Qed.

Lemma split_slash_app (a b : string) :
  split_slash (a +:+ "/" +:+ b) = (split_slash a ++ split_slash b)%list.
Proof.
  induction a as [|c a IH]; [done|].
  rewrite string_app_cons. simpl. rewrite IH.
  destruct (Ascii.eqb c "/"); [done|].
  by destruct (split_slash_cons_inv a) as (e & es & ->).
Qed.

Lemma split_slash_no_slash s : no_slash s = true -> split_slash s = [s].
Proof.
  induction s as [|c s IH]; [done|]. simpl.
  destruct (Ascii.eqb c "/"); [done|]. simpl. by intros ->%IH.
Qed.

Lemma split_slash_all_no_slash s : Forall (fun e => no_slash e = true) (split_slash s).
Proof.
  induction s as [|c s IH]; [by repeat constructor|]. simpl.
  destruct (Ascii.eqb c "/") eqn:Hc; [by constructor|].
  destruct (split_slash_cons_inv s) as (e & es & Hs). rewrite Hs in *.
  apply Forall_cons_1 in IH as [He Hes]. constructor; [|done].
  simpl. by rewrite Hc.
Qed.

Lemma is_name_no_slash e : is_name e = true -> no_slash e = true.
Proof. unfold is_name. by intros [[[? _]%andb_prop _]%andb_prop _]%andb_prop. Qed.

Lemma is_name_nonempty e : is_name e = true -> e ≠ "".
Proof. intros He ->. done. Qed.

(** *** The scan of [Clean] *)

Lemma clean_step_name rooted out e :
  is_name e = true -> clean_step rooted out e = e :: out.
Proof.
  unfold is_name, clean_step.
  intros [[[_ H1]%andb_prop H2]%andb_prop H3]%andb_prop.
  apply negb_true_iff in H1, H2, H3. by rewrite H1, H2, H3.
Qed.

Lemma clean_step_rooted_names out e :
  Forall (fun x => is_name x = true) out ->
  no_slash e = true ->
  Forall (fun x => is_name x = true) (clean_step true out e).
Proof.
  intros Hout He. unfold clean_step.
  destruct (String.eqb e "") eqn:H1; [done|].
  destruct (String.eqb e ".") eqn:H2; [done|]. simpl.
  destruct (String.eqb e "..") eqn:H3.
  - destruct Hout as [|top rest Htop Hrest]; [done|].
    destruct (String.eqb top ".."); [by constructor|done].
  - constructor; [|done]. unfold is_name. by rewrite He, H1, H2, H3.
Qed.

Lemma clean_scan_rooted_names elems out :
  Forall (fun x => is_name x = true) out ->
  Forall (fun e => no_slash e = true) elems ->
  Forall (fun x => is_name x = true) (fold_left (clean_step true) elems out).
Proof.
  revert out. induction elems as [|e elems IH]; intros out Hout Hel; [done|].
  apply Forall_cons_1 in Hel as [He Hel]. simpl.
  by apply IH; [apply clean_step_rooted_names|].
Qed.

(** Below the elements [base] already written, a walk that stays below
    its start only adds and removes elements of its own. *)
Lemma clean_scan_stays_below elems own base :
  stays_below_from (length own) elems = true ->
  Forall (fun x => is_name x = true) own ->
  Forall (fun e => no_slash e = true) elems ->
  exists own',
    fold_left (clean_step true) elems (own ++ base)%list = (own' ++ base)%list /\
    Forall (fun x => is_name x = true) own'.
Proof.
  revert own. induction elems as [|e elems IH]; intros own Hwalk Hown Hel.
  { by exists own. }
  apply Forall_cons_1 in Hel as [He Hel]. simpl in Hwalk |- *.
  unfold clean_step at 2.
  destruct (String.eqb e "" || String.eqb e ".") eqn:H12; [by apply IH|].
  destruct (String.eqb e "..") eqn:H3.
  - destruct Hown as [|top own Htop Hown]; [done|]. simpl in Hwalk |- *.
    assert (String.eqb top ".." = false) as ->.
    { unfold is_name in Htop. apply andb_prop in Htop as [_ Htop].
      by apply negb_true_iff. }
    by apply IH.
  - apply (IH (e :: own)); [done| |done].
    constructor; [|done]. unfold is_name.
    apply orb_false_elim in H12 as [H1 H2]. by rewrite He, H1, H2, H3.
Qed.

(** A scan over names and empty elements keeps the names. *)
Lemma clean_scan_tame rooted elems out :
  Forall (fun e => e = "" \/ is_name e = true) elems ->
  fold_left (clean_step rooted) elems out
  = (rev (filter (fun e => e ≠ "") elems) ++ out)%list.
Proof.
  revert out. induction elems as [|e elems IH]; intros out Hel; [done|].
  apply Forall_cons_1 in Hel as [He Hel]. simpl. rewrite IH by done.
  destruct He as [-> | He].
  - by rewrite filter_cons_False by (intros H; by apply H).
  - rewrite clean_step_name by done.
    rewrite filter_cons_True by by apply is_name_nonempty.
    simpl. by rewrite <- app_assoc.
Qed.

(** *** Rooted paths made of names *)

Lemma concat_cons2 x y (l : list string) :
  String.concat "/" (x :: y :: l) = x +:+ "/" +:+ String.concat "/" (y :: l).
Proof. reflexivity. Qed.

Lemma concat_snoc (l : list string) x :
  l ≠ [] -> String.concat "/" (l ++ [x]) = String.concat "/" l +:+ "/" +:+ x.
Proof.
  induction l as [|y l IH]; [done|]. intros _.
  destruct l as [|z l]; [done|].
  change ((y :: z :: l) ++ [x])%list with (y :: ((z :: l) ++ [x]))%list.
  change ((z :: l) ++ [x])%list with (z :: (l ++ [x]))%list at 1.
  rewrite (concat_cons2 y z (l ++ [x])), (concat_cons2 y z l).
  change (z :: (l ++ [x]))%list with ((z :: l) ++ [x])%list.
  rewrite IH by done. by rewrite !string_app_assoc.
Qed.

Lemma split_concat (l : list string) :
  Forall (fun e => no_slash e = true) l -> l ≠ [] ->
  split_slash (String.concat "/" l) = l.
Proof.
  induction l as [|x l IH]; [done|]. intros [Hx Hl]%Forall_cons_1 _.
  destruct l as [|y l]; [by apply split_slash_no_slash|].
  rewrite concat_cons2, split_slash_app, split_slash_no_slash by done.
  by rewrite IH.
Qed.

Lemma names_no_slash (l : list string) :
  Forall (fun x => is_name x = true) l -> Forall (fun e => no_slash e = true) l.
Proof. intros Hl. eapply Forall_impl; [exact Hl|]. apply is_name_no_slash. Qed.

Lemma filter_names (l : list string) :
  Forall (fun x => is_name x = true) l -> filter (fun e => e ≠ "") l = l.
Proof.
  induction 1 as [|x l Hx Hl IH]; [done|].
  by rewrite filter_cons_True, IH by by apply is_name_nonempty.
Qed.

Lemma elems_app (a b : string) : elems (a +:+ "/" +:+ b) = (elems a ++ elems b)%list.
Proof. unfold elems. by rewrite split_slash_app, filter_app. Qed.

Lemma tame_app (a b : string) : tame a -> tame b -> tame (a +:+ "/" +:+ b).
Proof. unfold tame. rewrite split_slash_app. apply Forall_app_2. Qed.

Lemma tame_empty : tame "".
Proof. repeat constructor. Qed.

Lemma elems_name x : is_name x = true -> elems x = [x].
Proof.
  intros Hx. unfold elems.
  rewrite split_slash_no_slash by by apply is_name_no_slash.
  by rewrite filter_cons_True by by apply is_name_nonempty.
Qed.

Lemma tame_name x : is_name x = true -> tame x.
Proof.
  intros Hx. unfold tame.
  rewrite split_slash_no_slash by by apply is_name_no_slash.
  constructor; [by right|constructor].
Qed.

Lemma split_rooted_path (l : list string) :
  Forall (fun x => is_name x = true) l ->
  split_slash (rooted_path l) = "" :: match l with [] => [""] | _ => l end.
Proof.
  intros Hl. unfold rooted_path. destruct l as [|x l]; [done|].
  change (split_slash ("/" +:+ ?t)) with ("" :: split_slash t). f_equal.
  apply split_concat; [by apply names_no_slash|done].
Qed.

Lemma elems_rooted_path (l : list string) :
  Forall (fun x => is_name x = true) l -> elems (rooted_path l) = l.
Proof.
  intros Hl. unfold elems. rewrite split_rooted_path by done.
  rewrite filter_cons_False by (intros H; by apply H).
  destruct l as [|x l]; [done|]. by apply filter_names.
Qed.

Lemma tame_rooted_path (l : list string) :
  Forall (fun x => is_name x = true) l -> tame (rooted_path l).
Proof.
  intros Hl. unfold tame. rewrite split_rooted_path by done.
  constructor; [by left|]. destruct l as [|x l]; [by repeat constructor|].
  eapply Forall_impl; [exact Hl|]. intros e He. by right.
Qed.

Lemma is_rooted_nonempty path : is_rooted path = true -> String.eqb path "" = false.
Proof. by destruct path. Qed.

(** On a rooted path made of names and empty elements [Clean] only drops
    the empty elements. *)
Lemma Clean_tame path :
  is_rooted path = true -> tame path -> Clean path = rooted_path (elems path).
Proof.
  intros Hrooted Htame. unfold Clean, clean_elems.
  rewrite is_rooted_nonempty, Hrooted by done.
  rewrite clean_scan_tame, app_nil_r, rev_involutive by done. done.
Qed.

Lemma Clean_rooted_path (l : list string) :
  Forall (fun x => is_name x = true) l -> Clean (rooted_path l) = rooted_path l.
Proof.
  intros Hl. rewrite Clean_tame; [|done|by apply tame_rooted_path].
  by rewrite elems_rooted_path.
Qed.

(** The result of [Clean] on a rooted path is a rooted path of names. *)
Lemma Clean_rooted path :
  is_rooted path = true ->
  exists names, Forall (fun x => is_name x = true) names /\
                Clean path = rooted_path names.
Proof.
  intros Hrooted. exists (clean_elems path). split.
  - unfold clean_elems. apply Forall_rev. rewrite Hrooted.
    apply clean_scan_rooted_names; [done|apply split_slash_all_no_slash].
  - unfold Clean. by rewrite is_rooted_nonempty, Hrooted.
Qed.

(** *** [Split], [Join] and [http.Dir] on rooted paths of names *)

Lemma Split_no_slash x : no_slash x = true -> Split x = ("", x).
Proof.
  induction x as [|c x IH]; [done|]. simpl.
  intros [Hc Hx]%andb_prop. rewrite IH by done.
  by apply negb_true_iff in Hc as ->.
Qed.

Lemma Split_snoc p x :
  no_slash x = true -> Split (p +:+ "/" +:+ x) = (p +:+ "/", x).
Proof.
  intros Hx. induction p as [|c p IH].
  - change (Split ("" +:+ "/" +:+ x))
      with (let '(dir, file) := Split x in
            match dir with
            | EmptyString => (String "/" EmptyString, file)
            | _ => (String "/" dir, file)
            end).
    by rewrite Split_no_slash.
  - rewrite (string_app_cons c p). cbn [Split]. rewrite IH. by destruct p.
Qed.

Lemma rooted_path_snoc (l : list string) x :
  rooted_path (l ++ [x]) = parent l +:+ "/" +:+ x.
Proof.
  destruct l as [|y l]; [done|]. unfold parent, rooted_path.
  by rewrite concat_snoc, string_app_assoc.
Qed.

Lemma parent_dir (l : list string) :
  Forall (fun x => is_name x = true) l ->
  is_rooted (parent l +:+ "/") = true /\ tame (parent l +:+ "/") /\
  elems (parent l +:+ "/") = l.
Proof.
  intros Hl. split; [by destruct l|].
  rewrite <- (string_app_nil_r (parent l +:+ "/")), string_app_assoc.
  change ("/" +:+ "") with ("/" +:+ "" +:+ "")%string.
  destruct l as [|y l]; [split; [repeat constructor|done]|].
  split.
  - apply tame_app; [by apply tame_rooted_path|apply tame_empty].
  - rewrite elems_app. unfold parent. rewrite elems_rooted_path by done.
    apply app_nil_r.
Qed.

Lemma tame_elems path :
  tame path -> Forall (fun x => is_name x = true) (elems path).
Proof.
  unfold tame, elems. induction 1 as [|e l He Hl IH]; [done|].
  destruct He as [-> | He].
  - by rewrite filter_cons_False by (intros H; by apply H).
  - rewrite filter_cons_True by by apply is_name_nonempty. by constructor.
Qed.

Lemma is_rooted_app a b : is_rooted a = true -> is_rooted (a +:+ b) = true.
Proof. by destruct a. Qed.

Lemma Join_rooted dir path :
  is_rooted dir = true -> Join [dir; path] = Clean (dir +:+ "/" +:+ path).
Proof. intros Hdir. unfold Join. by rewrite is_rooted_nonempty. Qed.

(** What [http.Dir(dir).Open(name)] opens when everything is made of names. *)
Lemma Dir_fullName_tame dir name :
  is_rooted dir = true -> tame dir -> tame name ->
  Dir_fullName dir name = rooted_path (elems dir ++ elems name).
Proof.
  intros Hrooted Hdir Hname. unfold Dir_fullName.
  rewrite is_rooted_nonempty by done.
  change ("/" +:+ name) with ("" +:+ "/" +:+ name).
  rewrite (Clean_tame ("" +:+ "/" +:+ name));
    [|done|by apply tame_app; [apply tame_empty|]].
  rewrite elems_app. change (elems "") with (@nil string). rewrite app_nil_l.
  pose proof (tame_elems name Hname) as Hnames.
  rewrite Join_rooted by done.
  rewrite Clean_tame;
    [|by apply is_rooted_app|by apply tame_app; [|apply tame_rooted_path]].
  by rewrite elems_app, elems_rooted_path.
Qed.

Lemma resolved_rooted_path rootdir url (l : list string) :
  Forall (fun x => is_name x = true) l ->
  Join [rootdir; url] = rooted_path l ->
  resolved rootdir url = rooted_path l /\
  resolved_index rootdir url = rooted_path (l ++ ["index.html"]).
Proof.
  intros Hl HJ. unfold resolved, resolved_index. rewrite HJ.
  destruct l as [|x l _] using rev_ind; [done|].
  apply Forall_app in Hl as [Hl [Hx _]%Forall_cons_1].
  rewrite rooted_path_snoc, Split_snoc by by apply is_name_no_slash.
  destruct (parent_dir l Hl) as (Hrooted & Htame & Helems).
  split.
  - rewrite Dir_fullName_tame by (try done; by apply tame_name).
    by rewrite Helems, elems_name, rooted_path_snoc.
  - change (x +:+ indexPage) with (x +:+ "/" +:+ "index.html").
    rewrite Dir_fullName_tame;
      [|done|done|by apply tame_app; apply tame_name].
    by rewrite Helems, elems_app, !elems_name, <- app_assoc.
Qed.

(** What [Join(rootdir, url)] is, for every request path and for one that
    stays below its start. *)
Lemma Join_names rootdir url :
  is_rooted rootdir = true ->
  exists l, Forall (fun x => is_name x = true) l /\
            Join [rootdir; url] = rooted_path l.
Proof.
  intros Hrooted. rewrite Join_rooted by done.
  by apply Clean_rooted, is_rooted_app.
Qed.

Lemma Join_stays_below rootdir url :
  is_rooted rootdir = true -> stays_below url = true ->
  exists base own,
    Forall (fun x => is_name x = true) (base ++ own) /\
    Clean rootdir = rooted_path base /\
    Join [rootdir; url] = rooted_path (base ++ own).
Proof.
  intros Hrooted Hbelow. rewrite Join_rooted by done.
  set (scanned := fold_left (clean_step true) (split_slash rootdir) []).
  assert (Hbase : Forall (fun x => is_name x = true) scanned)
    by (apply clean_scan_rooted_names; [done|apply split_slash_all_no_slash]).
  destruct (clean_scan_stays_below (split_slash url) [] scanned)
    as (own & Hscan & Hown); [done|done|apply split_slash_all_no_slash|].
  exists (rev scanned), (rev own). split; [|split].
  - apply Forall_app; split; by apply Forall_rev.
  - unfold Clean, clean_elems. by rewrite is_rooted_nonempty, Hrooted.
  - unfold Clean, clean_elems.
    rewrite is_rooted_nonempty, is_rooted_app by by (try apply is_rooted_app).
    rewrite split_slash_app, fold_left_app. fold scanned.
    simpl in Hscan. by rewrite Hscan, rev_app_distr.
Qed.

End PathFacts.

Section Resolution.

Context `{RT : Runtime}.

Lemma myFileServer_not_found (os : FileSystem) rootdir r url (s : World) :
  os (resolved rootdir url) = None ->
  fst (myFileServer os rootdir r url s) = Returned tt /\
  w_resp (snd (myFileServer os rootdir r url s))
    = rw_Error "404 page not found" StatusNotFound (w_resp s).
Proof.
  unfold resolved, myFileServer.
  destruct (Path.Split (Path.Join [rootdir; url])) as [dir file].
  intros Hnone. unfold serveFile, Dir_Open. unfold bind at 1.
  destruct (Path.contains_nul file); [done|].
  unfold os_Open. by rewrite Hnone.
Qed.

(** C1 (amended). With the server root a rooted path, the name
    [myFileServer] opens for a request path is the lexical join of root and
    path: a rooted path of plain names, with no [.] or [..] element and no
    doubled separator, which [Clean] leaves as it is. When nothing can be
    opened under that name the answer is "not found". For a request path
    whose [..] elements never climb above its own start, the name opened,
    and the name tried for its index page, lie within the root. *)
Theorem resolved_path_is_canonical
  (os : FileSystem) (rootdir url : string) (r : Request) (s : World) :
  Path.is_rooted rootdir = true ->
  (resolved rootdir url = Path.Join [rootdir; url] /\
   resolved rootdir url = rooted_path (Path.elems (resolved rootdir url)) /\
   Forall (fun e => is_name e = true) (Path.elems (resolved rootdir url)) /\
   Path.Clean (resolved rootdir url) = resolved rootdir url) /\
  (os (resolved rootdir url) = None ->
     fst (myFileServer os rootdir r url s) = Returned tt /\
     w_resp (snd (myFileServer os rootdir r url s))
       = rw_Error "404 page not found" StatusNotFound (w_resp s)) /\
  (stays_below url = true ->
     Path.within (Path.Clean rootdir) (resolved rootdir url) /\
     Path.within (Path.Clean rootdir) (resolved_index rootdir url)).
Proof.
  intros Hrooted. split; [|split].
  - destruct (Join_names rootdir url Hrooted) as (l & Hl & HJ).
    destruct (resolved_rooted_path rootdir url l Hl HJ) as [-> _].
    rewrite elems_rooted_path, Clean_rooted_path by done. by rewrite HJ.
  - apply myFileServer_not_found.
  - intros Hbelow.
    destruct (Join_stays_below rootdir url Hrooted Hbelow)
      as (base & own & Hl & -> & HJ).
    destruct (resolved_rooted_path rootdir url _ Hl HJ) as [-> ->].
    assert (Hindex : Forall (fun x => is_name x = true)
                       ((base ++ own) ++ ["index.html"])%list)
      by (apply Forall_app; split; [done|by repeat constructor]).
    assert (Hbase : Forall (fun x => is_name x = true) base)
      by (by apply Forall_app in Hl as [? _]).
    unfold Path.within.
    rewrite (elems_rooted_path base), (elems_rooted_path (base ++ own)),
      (elems_rooted_path ((base ++ own) ++ ["index.html"])) by done.
    split; [by apply prefix_app_r|]. rewrite <- app_assoc. by apply prefix_app_r.
Qed.

End Resolution.

(** * Further properties of the code *)

(** ** The ordering of [sortedFiles] *)

Section Ordering.

Context `{RT : Runtime}.

Lemma ltb_irrefl (a : string) : String.ltb a a = false.
Proof.
  unfold String.ltb.
  assert (String.compare a a = Eq) as ->; [|done].
  induction a as [|c a IH]; simpl; [done|].
  unfold Ascii.compare. by rewrite N.compare_refl.
Qed.

Lemma ltb_asym (a b : string) : String.ltb a b = true -> String.ltb b a = false.
Proof.
  unfold String.ltb. rewrite (String.compare_antisym a b).
  by destruct (String.compare b a).
Qed.

Lemma ltb_trans (a b c : string) :
  String.ltb a b = true -> String.ltb b c = true -> String.ltb a c = true.
Proof.
  intros Hab Hbc.
  pose proof (ltb_le a b Hab) as Lab. pose proof (ltb_le b c Hbc) as Lbc.
  assert (Lac : (a ≤ c)%string) by (by etrans).
  unfold String.ltb. destruct (String.compare a c) eqn:Hac; [|done|].
  - apply String.compare_eq_iff in Hac as ->.
    assert (b = c) as -> by (by apply (anti_symm String.le)).
    by rewrite ltb_irrefl in Hbc.
  - unfold String.le, String.leb in Lac. by rewrite Hac in Lac.
Qed.

(** X1. [Less] is a strict order on the positions of a slice: no position is
    less than itself, two positions are never less than each other both
    ways, and it is transitive. It looks at the lower-cased names only: two
    entries whose names differ in case alone are not [Less] either way. *)
Theorem sortedFiles_Less_strict_order (s : sortedFiles) (i j k : nat) :
  sortedFiles_Less s i i = false /\
  (sortedFiles_Less s i j = true -> sortedFiles_Less s j i = false) /\
  (sortedFiles_Less s i j = true -> sortedFiles_Less s j k = true ->
     sortedFiles_Less s i k = true) /\
  (forall a b, s !! i = Some a -> s !! j = Some b ->
     strings_ToLower (Name a) = strings_ToLower (Name b) ->
     sortedFiles_Less s i j = false /\ sortedFiles_Less s j i = false).
Proof.
  unfold sortedFiles_Less. split; [|split; [|split]].
  - destruct (s !! i); [apply ltb_irrefl|done].
  - destruct (s !! i), (s !! j); try done. apply ltb_asym.
  - destruct (s !! i), (s !! j), (s !! k); try done. apply ltb_trans.
  - intros a b -> -> ->. by rewrite ltb_irrefl.
Qed.

Lemma sortedFiles_Swap_lookup (s : sortedFiles) (i j : nat) a b :
  s !! i = Some a -> s !! j = Some b ->
  forall k, sortedFiles_Swap s i j !! k
            = if decide (k = i) then Some b
              else if decide (k = j) then Some a
              else s !! k.
Proof.
  intros Hi Hj k. unfold sortedFiles_Swap, sortedFiles in *. rewrite Hi, Hj.
  pose proof (lookup_lt_Some _ _ _ Hi) as Hli.
  pose proof (lookup_lt_Some _ _ _ Hj) as Hlj.
  destruct (decide (k = i)) as [-> | Hki].
  - by rewrite list_lookup_insert_eq by (by rewrite length_insert).
  - rewrite list_lookup_insert_ne by done.
    destruct (decide (k = j)) as [-> | Hkj].
    + by rewrite list_lookup_insert_eq.
    + by rewrite list_lookup_insert_ne.
Qed.

(** X2. On two positions of the slice [Swap] exchanges the two entries,
    leaves every other position and the length as they are, and swapping
    again gives the slice back. *)
Theorem sortedFiles_Swap_exchanges (s : sortedFiles) (i j : nat) :
  (i < length s)%nat -> (j < length s)%nat ->
  sortedFiles_Swap s i j !! i = s !! j /\
  sortedFiles_Swap s i j !! j = s !! i /\
  (forall k, k ≠ i -> k ≠ j -> sortedFiles_Swap s i j !! k = s !! k) /\
  Len (sortedFiles_Swap s i j) = Len s /\
  sortedFiles_Swap (sortedFiles_Swap s i j) i j = s.
Proof.
  unfold sortedFiles in *. intros Hi Hj.
  destruct (lookup_lt_is_Some_2 s i Hi) as [a Ha].
  destruct (lookup_lt_is_Some_2 s j Hj) as [b Hb].
  pose proof (sortedFiles_Swap_lookup s i j a b Ha Hb) as Hswap.
  assert (Hi' : sortedFiles_Swap s i j !! i = Some b).
  { rewrite Hswap. by rewrite decide_True. }
  assert (Hj' : sortedFiles_Swap s i j !! j = Some a).
  { rewrite Hswap. destruct (decide (j = i)) as [-> | ?]; [congruence|].
    by rewrite decide_True. }
  unfold sortedFiles in *.
  split; [congruence|]. split; [congruence|]. split; [|split].
  - intros k Hki Hkj. rewrite Hswap. by rewrite !decide_False.
  - change (length (sortedFiles_Swap s i j) = length s).
    unfold sortedFiles_Swap, sortedFiles. rewrite Ha, Hb.
    by rewrite !length_insert.
  - apply list_eq. intros k.
    rewrite (sortedFiles_Swap_lookup _ i j b a Hi' Hj'), Hswap.
    destruct (decide (k = i)) as [-> | ?]; [done|].
    by destruct (decide (k = j)) as [-> | ?].
Qed.

#[local] Instance lower_le_trans : Transitive lower_le.
Proof. intros a b c. unfold lower_le. apply transitivity. Qed.



End Ordering.

(** ** The cases of [serveFile] *)

Section Cases.

Context `{RT : Runtime}.

Lemma Dir_Open_effect (os : FileSystem) fs name s o s1 :
  Dir_Open os fs name s = (Returned o, s1) ->
  w_resp s1 = w_resp s /\
  (w_opened s1 = w_opened s \/
   w_opened s1 = (w_opened s ++ [Dir_fullName fs name])%list).
Proof.
  unfold Dir_Open, os_Open, ret.
  destruct (Path.contains_nul name); intros [= <- <-]; simpl; auto.
Qed.

(** X4. When the name does not open, or opens and its [Stat] fails,
    [serveFile] answers "not found" with the fixed text: the answer is the
    same for both failures and for every name, no index page is tried, and
    at most the one name has been handed to [os.Open]. *)
Theorem serveFile_not_found
  (os : FileSystem) (r : Request) (fs name : string) (s s1 : World) :
  (Dir_Open os fs name s = (Returned None, s1) \/
   exists f, Dir_Open os fs name s = (Returned (Some f), s1) /\ f_stat f = None) ->
  serveFile os r fs name s
    = (Returned tt, mkWorld (not_found_answer (w_resp s)) (w_opened s1)) /\
  (rw_status (w_resp s) = None ->
     rw_status (not_found_answer (w_resp s)) = Some StatusNotFound /\
     rw_body (not_found_answer (w_resp s))
       = rw_body (w_resp s) +:+ "404 page not found" +:+ nl) /\
  (w_opened s1 = w_opened s \/
   w_opened s1 = (w_opened s ++ [Dir_fullName fs name])%list).
Proof.
  intros Hcase.
  assert (Hopen : exists o, Dir_Open os fs name s = (Returned o, s1))
    by (destruct Hcase as [H | (f & H & _)]; eauto).
  destruct Hopen as (o & Hopen).
  destruct (Dir_Open_effect _ _ _ _ _ _ Hopen) as [Hresp Hopened].
  split; [|split; [|done]].
  - unfold serveFile, bind at 1.
    destruct Hcase as [H | (f & H & Hstat)]; rewrite H; [|rewrite Hstat];
      unfold http_NotFound, http_Error, on_writer, not_found_answer;
      by rewrite Hresp.
  - intros Hfresh.
    unfold not_found_answer, rw_Error, rw_Write, rw_WriteHeader, rw_Set; cbn.
    rewrite Hfresh; cbn. done.
Qed.

(** X5. A name that opens to a regular file is served by the content
    transmitter with the file's own name and modification time: nothing has
    been written to the response before, the one name has been opened, and
    no index page is tried. *)
Theorem serveFile_regular_file
  (os : FileSystem) (r : Request) (fs name : string)
  (f : File) (d : FileInfo) (s s1 : World) :
  Dir_Open os fs name s = (Returned (Some f), s1) ->
  f_stat f = Some d ->
  IsDir d = false ->
  serveFile os r fs name s = http_ServeContent r (Name d) (ModTime d) f s1 /\
  w_resp s1 = w_resp s /\
  w_opened s1 = (w_opened s ++ [Dir_fullName fs name])%list /\
  os (Dir_fullName fs name) = Some f.
Proof.
  intros Hopen Hstat Hfile. split.
  - unfold serveFile, bind at 1. rewrite Hopen, Hstat, Hfile.
    unfold bind, ret. by rewrite Hfile.
  - unfold Dir_Open, os_Open, ret in Hopen.
    destruct (Path.contains_nul name); by simplify_eq.
Qed.

Lemma serveFile_directory
  (os : FileSystem) (r : Request) (fs name : string)
  (f : File) (d : FileInfo) (s s1 s2 : World) :
  Dir_Open os fs name s = (Returned (Some f), s1) ->
  f_stat f = Some d ->
  IsDir d = true ->
  index_unusable os fs name s1 s2 ->
  serveFile os r fs name s
  = (done <- checkLastModified r (ModTime d) ;;
     if done then ret tt else sortedDirList f) s2 /\
  w_resp s2 = w_resp s.
Proof.
  intros Hopen Hstat Hdir Hindex. split.
  - unfold serveFile, bind at 1. rewrite Hopen, Hstat, Hdir.
    unfold bind at 1. unfold bind at 1.
    destruct Hindex as [H | (ff & H & Hff)]; rewrite H; [|rewrite Hff];
      unfold ret; by rewrite Hdir.
  - destruct (Dir_Open_effect _ _ _ _ _ _ Hopen) as [<- _].
    destruct Hindex as [H | (ff & H & _)];
      by destruct (Dir_Open_effect _ _ _ _ _ _ H) as [-> _].
Qed.

(** X6. A directory without a usable index page, asked for with an
    [If-Modified-Since] date less than a second before its modification time
    or later, is answered "not modified": the status 304 is committed, nothing is
    written to the body, and the directory is not read. *)
Theorem serveFile_directory_not_modified
  (os : FileSystem) (r : Request) (fs name : string)
  (f : File) (d : FileInfo) (t : Time) (s s1 s2 : World) :
  Dir_Open os fs name s = (Returned (Some f), s1) ->
  f_stat f = Some d ->
  IsDir d = true ->
  index_unusable os fs name s1 s2 ->
  Time_IsZero (ModTime d) = false ->
  time_Parse (Header_Get (Header r) "If-Modified-Since") = Some t ->
  ModTime d < t + time_Second ->
  serveFile os r fs name s
    = (Returned tt,
       mkWorld (rw_WriteHeader StatusNotModified (w_resp s)) (w_opened s2)) /\
  rw_body (rw_WriteHeader StatusNotModified (w_resp s)) = rw_body (w_resp s).
Proof.
  intros Hopen Hstat Hdir Hindex Hnz Hparse Hlt.
  destruct (serveFile_directory os r fs name f d s s1 s2) as [-> Hresp]; try done.
  split; [|apply rw_WriteHeader_body].
  unfold bind at 1, checkLastModified. rewrite Hnz, Hparse.
  unfold Time_Before, Time_Add. rewrite Z.mul_1_l.
  destruct (Z.ltb_spec (ModTime d) (t + time_Second)); [|lia].
  cbn. by rewrite Hresp.
Qed.


(** X8. A client that sends back, as [If-Modified-Since], the value of the
    [Last-Modified] header it was given is answered "not modified", whatever
    fraction of a second the modification time carries, as long as parsing
    the formatted time loses less than a second. *)
Theorem Last_Modified_round_trip
  (r1 r2 : Request) (modtime t : Time) (s s' : World) :
  Time_IsZero modtime = false ->
  Header r1 !! "If-Modified-Since" = None ->
  time_Parse (time_Format modtime) = Some t ->
  modtime < t + time_Second ->
  Header_Get (Header r2) "If-Modified-Since"
    = Header_Get (rw_header (w_resp (snd (checkLastModified r1 modtime s))))
        "Last-Modified" ->
  checkLastModified r2 modtime s'
    = (Returned true,
       mkWorld (rw_WriteHeader StatusNotModified (w_resp s')) (w_opened s')).
Proof.
  intros Hnz Hunset Hparse Hlt Hsent.
  assert (Hvalue : Header_Get (Header r2) "If-Modified-Since" = time_Format modtime).
  { rewrite Hsent. unfold checkLastModified, Header_Get at 2.
    rewrite Hnz, Hunset, time_Parse_empty. cbn.
    unfold Header_Get. by rewrite lookup_insert_eq. }
  unfold checkLastModified. rewrite Hnz, Hvalue, Hparse.
  unfold Time_Before, Time_Add. rewrite Z.mul_1_l.
  by destruct (Z.ltb_spec modtime (t + time_Second)); [|lia].
Qed.

(** X9. The boundary is transparent for an authorised request whose handler
    returns: the answer is the handler's own, run on the request path with
    the [Server] header already set. With [myFileServer] as the handler, an
    authorised request for a name nothing opens under is answered "not
    found" with the [Server] header still in place. *)
Theorem makeHandler_passes_through
  (up : UserPass) (os : FileSystem) (rootdir : string)
  (fn : Request -> string -> M unit) (r : Request) (s : World) :
  IsAllowed up r = true ->
  (forall s1, fn r (URL_Path r) (server_header s) = (Returned tt, s1) ->
     makeHandler up fn r s = (Returned tt, s1)) /\
  (os (resolved rootdir (URL_Path r)) = None ->
     fst (makeHandler up (myFileServer os rootdir) r s) = Returned tt /\
     w_resp (snd (makeHandler up (myFileServer os rootdir) r s))
       = not_found_answer (rw_Set "Server" idstring (w_resp s)) /\
     rw_header (not_found_answer (rw_Set "Server" idstring (w_resp s)))
       !! "Server" = Some [idstring]).
Proof.
  intros Hok.
  assert (Hrun : forall fn', makeHandler up fn' r s
                 = recover_error (fn' r (URL_Path r)) (server_header s)).
  { intros fn'. unfold makeHandler, recover_error. cbn. by rewrite Hok. }
  split.
  - intros s1 Hfn. rewrite Hrun. unfold recover_error. by rewrite Hfn.
  - intros Hnone. rewrite Hrun. unfold recover_error.
    destruct (myFileServer_not_found os rootdir r (URL_Path r) (server_header s) Hnone)
      as [Hret Hresp].
    destruct (myFileServer os rootdir r (URL_Path r) (server_header s))
      as [out s1] eqn:Hrun'.
    simpl in Hret, Hresp. subst out. simpl. split; [done|]. split; [done|].
    unfold not_found_answer, rw_Error, rw_Write.
    cbn [rw_header]. rewrite rw_WriteHeader_header. cbn [rw_header].
    rewrite rw_WriteHeader_header. cbn.
    rewrite 2!lookup_insert_ne by done. apply lookup_insert_eq.
Qed.

End Cases.

(** ** Tokens *)

Lemma unhex_hex_byte (b : byte) (rest : string) :
  unhex (hex_byte b +:+ rest)
  = match unhex rest with Some bs => Some (b :: bs) | None => None end.
Proof. destruct b; reflexivity. Qed.

Lemma unhex_Sprintf_x (buf : list byte) : unhex (Sprintf_x buf) = Some buf.
Proof.
  induction buf as [|b buf IH]; [done|].
  simpl Sprintf_x. by rewrite unhex_hex_byte, IH.
Qed.

(** X10. A token can be read back: decoding its hexadecimal text gives the
    bytes it was made from, so two sources that yield the same token agree
    on the bytes that were drawn. *)
Theorem token_determines_bytes
  (size : nat) (src1 src2 rest1 rest2 : list byte) (tok : string) :
  randToken size src1 = (inl tok, rest1) ->
  randToken size src2 = (inl tok, rest2) ->
  unhex tok = Some (take size src1) /\
  take size src1 = take size src2.
Proof.
  intros H1 H2.
  assert (Hread : forall src rest, randToken size src = (inl tok, rest) ->
                                   unhex tok = Some (take size src)).
  { intros src rest Hrun.
    destruct (Nat.le_gt_cases size (length src)) as [Hle | Hlt].
    - rewrite randToken_supplied in Hrun by done. simplify_eq.
      apply unhex_Sprintf_x.
    - rewrite randToken_dry in Hrun by done. discriminate. }
  pose proof (Hread _ _ H1) as R1. pose proof (Hread _ _ H2) as R2.
  split; [done|]. congruence.
Qed.

(** ** Request paths *)

Section Requests.

Import Path.

Lemma clean_step_empty rooted out : clean_step rooted out "" = out.
Proof. done. Qed.

Lemma Clean_rooted_scan path :
  is_rooted path = true ->
  Clean path
  = rooted_path (rev (fold_left (clean_step true) (split_slash path) [])).
Proof.
  intros Hrooted. unfold Clean, clean_elems.
  by rewrite is_rooted_nonempty, Hrooted.
Qed.

Lemma Join_trailing_slash rootdir url :
  is_rooted rootdir = true ->
  Join [rootdir; url +:+ "/"] = Join [rootdir; url].
Proof.
  intros Hrooted. rewrite !Join_rooted by done.
  rewrite !Clean_rooted_scan by by apply is_rooted_app.
  replace (rootdir +:+ "/" +:+ url +:+ "/")
    with ((rootdir +:+ "/" +:+ url) +:+ "/" +:+ "")
    by (by rewrite !string_app_assoc).
  by rewrite (split_slash_app (rootdir +:+ "/" +:+ url) ""), fold_left_app.
Qed.

Lemma Join_leading_slash rootdir url :
  is_rooted rootdir = true ->
  Join [rootdir; "/" +:+ url] = Join [rootdir; url].
Proof.
  intros Hrooted. rewrite !Join_rooted by done.
  rewrite !Clean_rooted_scan by by apply is_rooted_app.
  rewrite (split_slash_app rootdir ("/" +:+ url)), (split_slash_app rootdir url).
  rewrite !fold_left_app.
  by change (split_slash ("/" +:+ url)) with ("" :: split_slash url).
Qed.

(** X11. A slash more at either end of the request path changes nothing:
    the path with a trailing slash, and the path with a further leading
    slash, resolve to the same name, and so does the index page tried. *)
Theorem resolved_ignores_extra_slashes (rootdir url : string) :
  is_rooted rootdir = true ->
  resolved rootdir (url +:+ "/") = resolved rootdir url /\
  resolved rootdir ("/" +:+ url) = resolved rootdir url /\
  resolved_index rootdir (url +:+ "/") = resolved_index rootdir url /\
  resolved_index rootdir ("/" +:+ url) = resolved_index rootdir url.
Proof.
  intros Hrooted. unfold resolved, resolved_index.
  by rewrite Join_trailing_slash, Join_leading_slash.
Qed.

Lemma Join_tame rootdir url :
  is_rooted rootdir = true -> tame url ->
  Forall (fun x => is_name x = true) (elems (Clean rootdir) ++ elems url) /\
  Join [rootdir; url] = rooted_path (elems (Clean rootdir) ++ elems url).
Proof.
  intros Hrooted Hurl.
  set (scanned := fold_left (clean_step true) (split_slash rootdir) []).
  assert (Hbase : Forall (fun x => is_name x = true) (rev scanned)).
  { apply Forall_rev, clean_scan_rooted_names;
      [done|apply split_slash_all_no_slash]. }
  assert (Hroot : elems (Clean rootdir) = rev scanned).
  { rewrite Clean_rooted_scan by done. by apply elems_rooted_path. }
  rewrite Hroot. split.
  - apply Forall_app. split; [done|by apply tame_elems].
  - rewrite Join_rooted by done.
    rewrite Clean_rooted_scan by by apply is_rooted_app.
    rewrite split_slash_app, fold_left_app. fold scanned.
    rewrite clean_scan_tame by done. by rewrite rev_app_distr, rev_involutive.
Qed.

(** X12. For a request path made of plain names (no [.], no [..]), the
    name opened is the root's elements followed by the names of the path, in
    order, and the index page tried is [index.html] below it; the request
    path [/] opens the root itself. *)
Theorem resolved_of_plain_path (rootdir url : string) :
  is_rooted rootdir = true ->
  tame url ->
  resolved rootdir url = rooted_path (elems (Clean rootdir) ++ elems url) /\
  resolved_index rootdir url
    = rooted_path ((elems (Clean rootdir) ++ elems url) ++ ["index.html"]) /\
  resolved rootdir "/" = Clean rootdir.
Proof.
  intros Hrooted Hurl.
  destruct (Join_tame rootdir url Hrooted Hurl) as [Hnames HJ].
  destruct (resolved_rooted_path rootdir url _ Hnames HJ) as [-> ->].
  split; [done|]. split; [done|].
  assert (Hslash : tame "/") by repeat constructor.
  destruct (Join_tame rootdir "/" Hrooted Hslash) as [Hnames' HJ'].
  destruct (resolved_rooted_path rootdir "/" _ Hnames' HJ') as [-> _].
  change (elems "/") with (@nil string). rewrite app_nil_r.
  destruct (Clean_rooted rootdir Hrooted) as (l & Hl & ->).
  by rewrite elems_rooted_path.
Qed.

End Requests.

(** ** Start-up *)

(** X13. [randPort] never reports a port together with an error: with an
    error the port is 0. It succeeds exactly when resolving, listening and
    closing all succeed, and then the port is the one of the listener. *)
Theorem randPort_port_or_error (net : Network) :
  (forall err, snd (randPort net) = Some err -> fst (randPort net) = 0) /\
  (snd (randPort net) = None <->
     net_resolve net = None /\ net_listen net = None /\ net_close net = None) /\
  (snd (randPort net) = None -> fst (randPort net) = net_port net).
Proof.
  unfold randPort.
  destruct (net_resolve net), (net_listen net), (net_close net); simpl;
    intuition (try discriminate; try reflexivity).
Qed.

Lemma randPort_success_port (net : Network) (port : Z) :
  randPort net = (port, None) -> port = net_port net.
Proof.
  unfold randPort.
  destruct (net_resolve net), (net_listen net), (net_close net); by intros [=].
Qed.

Lemma initUserPass_ready (src : list byte) :
  (40 <= length src)%nat ->
  initUserPass src
  = Ready (mkUserPass (Sprintf_x (take 20 src)) (Sprintf_x (take 20 (drop 20 src))))
      ["user: " +:+ Sprintf_x (take 20 src);
       "password: " +:+ Sprintf_x (take 20 (drop 20 src))].
Proof.
  intros Hle. unfold initUserPass.
  rewrite randToken_supplied by lia.
  rewrite randToken_supplied by (rewrite length_drop; lia).
  by rewrite basicauth_New_hex by apply Sprintf_x_hex.
Qed.


Section StartupFacts.

Variable defaults : string.
Variable Duration_String : Z -> string.


(** X15. When [main] starts to serve, the credential it enforces is the one
    it has printed: user name and password are the hex forms of the first
    and the second twenty bytes of the source, printed on two lines before
    the line that announces the address, and the address is the host flag,
    a colon and the probed port in decimal. *)
Theorem main_serves_what_it_printed
  (flags : Flags) (src : list byte) (net : Network) (home : string) (port : Z) :
  flagHelp flags = false ->
  NArg flags = 0%nat ->
  (40 <= length src)%nat ->
  randPort net = (port, None) ->
  let user := Sprintf_x (take 20 src) in
  let pass := Sprintf_x (take 20 (drop 20 src)) in
  let hostPort := flagHost flags +:+ ":" +:+ pretty port in
  main defaults Duration_String flags src net home
    = Serving (mkUserPass user pass) hostPort (certFile home) (keyFile home)
        (flagDie flags)
        [Stderr ("user: " +:+ user +:+ nl);
         Stderr ("password: " +:+ pass +:+ nl);
         Stderr ("Starting to listen on: https://" +:+ hostPort +:+ nl);
         Stdout ("Server will die in " +:+ Duration_String (flagDie flags) +:+ nl)] /\
  port = net_port net /\
  String.length user = 40%nat /\ String.length pass = 40%nat.
Proof.
  intros Hhelp Hargs Hle Hport user pass hostPort.
  split; [|split].
  - unfold main. rewrite Hhelp, Hargs. simpl.
    rewrite initUserPass_ready by done. rewrite Hport. simpl.
    subst user pass hostPort. by rewrite !string_app_assoc.
  - destruct (randPort_success_port net port Hport). done.
  - unfold user, pass.
    rewrite !Sprintf_x_length, !length_take, length_drop. lia.
Qed.

End StartupFacts.

Section KeyMaterial.

Import Path.

(** X16. The certificate and the key are looked for in [keys] below the
    home directory: for a rooted [HOME] the two names are the elements of
    the cleaned [HOME] followed by [keys] and the file name. With [HOME]
    unset they are the relative names [keys/cert.pem] and [keys/key.pem],
    taken from the working directory. *)
Theorem key_material_paths (home : string) :
  certFile "" = "keys/cert.pem" /\
  keyFile "" = "keys/key.pem" /\
  (is_rooted home = true ->
     certFile home = rooted_path (elems (Clean home) ++ ["keys"; "cert.pem"]) /\
     keyFile home = rooted_path (elems (Clean home) ++ ["keys"; "key.pem"])).
Proof.
  split; [reflexivity|]. split; [reflexivity|]. intros Hrooted.
  assert (Hcert : tame "keys/cert.pem") by (repeat constructor; by right).
  assert (Hkey : tame "keys/key.pem") by (repeat constructor; by right).
  destruct (Join_tame home "keys/cert.pem" Hrooted Hcert) as [_ Hc].
  destruct (Join_tame home "keys/key.pem" Hrooted Hkey) as [_ Hk].
  rewrite Join_rooted in Hc, Hk by done.
  unfold certFile, keyFile, Join. rewrite is_rooted_nonempty by done.
  split; [exact Hc|exact Hk].
Qed.

End KeyMaterial.

(** ** Directories that cannot be read to the end *)

Section Truncation.

Context `{RT : Runtime}.

Lemma read_batch_readable n (pre : list FileInfo) (rest : list (option FileInfo)) :
  (length pre <= n)%nat ->
  read_batch n ((Some <$> pre) ++ rest)
  = let '(ds, failed, rest') := read_batch (n - length pre) rest in
    (pre ++ ds, failed, rest')%list.
Proof.
  revert n. induction pre as [|d pre IH]; intros n Hn.
  - simpl. rewrite Nat.sub_0_r. by destruct (read_batch n rest) as [[??]?].
  - destruct n as [|n]; [simpl in Hn; lia|]. simpl in Hn |- *.
    rewrite IH by lia.
    by destruct (read_batch (n - length pre) rest) as [[??]?].
Qed.

(** X17. When the entries before some entry can all be read and that entry
    cannot, the read loop keeps the full batches of a hundred entries that
    come before the failing batch and drops the rest: the listing is cut at
    a multiple of one hundred, and is empty when the failure is among the
    first hundred entries. *)
Theorem readdir_loop_cut_at_failure
  (f : File) (pre : list FileInfo) (rest : list (option FileInfo))
  (sdirs : sortedFiles) :
  f_dir f = ((Some <$> pre) ++ None :: rest)%list ->
  readdir_loop f sdirs
    = (sdirs ++ take (100 * (length pre / 100)) pre)%list /\
  ((length pre < 100)%nat -> readdir_loop f sdirs = sdirs).
Proof.
  intros Hdir.
  assert (Hcut : readdir_loop f sdirs
                 = (sdirs ++ take (100 * (length pre / 100)) pre)%list).
  { remember (length pre) as m eqn:Hm.
    revert f pre sdirs Hm Hdir. induction (lt_wf m) as [m _ IH].
    intros f pre sdirs -> Hdir.
    rewrite readdir_loop_step. unfold Readdir. rewrite Hdir.
    destruct (Nat.le_gt_cases 100 (length pre)) as [Hfull | Hshort].
    - rewrite <- (take_drop 100 pre) at 1.
      rewrite fmap_app, <- app_assoc.
      rewrite read_batch_readable by (rewrite length_take; lia).
      rewrite length_take, Nat.min_l, Nat.sub_diag by done.
      cbn [read_batch]. rewrite app_nil_r. cbn [orb].
      assert (length (take 100 pre) = 100%nat) as Hlen
        by (rewrite length_take; lia).
      rewrite Hlen. cbn [Nat.eqb].
      assert (Hless : (length (drop 100 pre) < length pre)%nat)
        by (rewrite length_drop; lia).
      rewrite (IH _ Hless (mkFile (f_stat f) ((Some <$> drop 100 pre) ++ None :: rest)
                             (f_data f)) (drop 100 pre) _ eq_refl eq_refl).
      rewrite <- app_assoc. f_equal.
      rewrite length_drop.
      replace (length pre / 100)%nat with (S ((length pre - 100) / 100)).
      + replace (100 * S ((length pre - 100) / 100))%nat
          with (100 + 100 * ((length pre - 100) / 100))%nat by lia.
        by rewrite <- take_take_drop.
      + replace (length pre) with ((length pre - 100) + 1 * 100)%nat at 2 by lia.
        rewrite Nat.div_add by lia. lia.
    - rewrite read_batch_readable by lia.
      destruct (100 - length pre)%nat as [|k] eqn:Hk; [lia|].
      cbn [read_batch]. rewrite app_nil_r. cbn [orb].
      rewrite Nat.div_small by lia. by rewrite Nat.mul_0_r, take_0, app_nil_r. }
  split; [done|]. intros Hshort. rewrite Hcut.
  rewrite Nat.div_small by lia. by rewrite Nat.mul_0_r, take_0, app_nil_r.
Qed.

End Truncation.

(** * The statements on the sample tree *)

Section Instances.

Import Sample.

(** C4 on a file changed half a second after the date of the header. *)
Lemma checkLastModified_not_modified_iff_witness :
  Time_IsZero (nov1994 + 500000000) = false /\
  time_Parse (Header_Get (Header since1994) "If-Modified-Since") = Some nov1994 /\
  answers_not_modified fresh
    (checkLastModified since1994 (nov1994 + 500000000) fresh).
Proof.
  assert (Hnz : Time_IsZero (nov1994 + 500000000) = false) by reflexivity.
  assert (Hparse : time_Parse (Header_Get (Header since1994) "If-Modified-Since")
                   = Some nov1994) by reflexivity.
  split; [exact Hnz|]. split; [exact Hparse|].
  apply (checkLastModified_not_modified_iff since1994 (nov1994 + 500000000)
           nov1994 fresh Hnz Hparse).
  reflexivity.
Defined.

(** C5 on a request without the header. *)
Lemma checkLastModified_never_short_circuits_witness :
  Header (GET "/a.txt") !! "If-Modified-Since" = None /\
  lets_proceed fresh (checkLastModified (GET "/a.txt") nov1994 fresh).
Proof.
  split; [reflexivity|].
  apply (checkLastModified_never_short_circuits (GET "/a.txt") nov1994 fresh).
  left. reflexivity.
Defined.

(** C8 on a request without the header. *)
Lemma checkLastModified_sets_Last_Modified_witness :
  Time_IsZero nov1994 = false /\
  fst (checkLastModified (GET "/a.txt") nov1994 fresh) = Returned false /\
  rw_header (w_resp (snd (checkLastModified (GET "/a.txt") nov1994 fresh)))
    !! "Last-Modified" = Some [time_Format nov1994] /\
  time_Format nov1994 = "Sun, 06 Nov 1994 08:49:37 GMT".
Proof.
  split; [reflexivity|]. split; [reflexivity|]. split; [|reflexivity].
  apply (checkLastModified_sets_Last_Modified (GET "/a.txt") nov1994 fresh);
    reflexivity.
Defined.

(** C8 as stated fails on a resource with the zero modification time: the
    check lets the caller proceed and sets no [Last-Modified] header. *)
Lemma zero_modtime_sets_no_Last_Modified :
  ~ (fst (checkLastModified (GET "/a.txt") 0 fresh) = Returned false ->
     rw_header (w_resp (snd (checkLastModified (GET "/a.txt") 0 fresh)))
       !! "Last-Modified" = Some [time_Format 0]).
Proof. intros H. specialize (H eq_refl). discriminate H. Qed.

(** C6 on a request with the wrong password and one with the wrong user. *)
Lemma unauthorized_is_uniform_witness :
  IsAllowed up (GET_auth "/a.txt" "Basic dTpx") = false /\
  IsAllowed up (CONNECT_auth "/docs" "Basic djpw") = false /\
  makeHandler up (myFileServer disk rootdir) (GET_auth "/a.txt" "Basic dTpx") fresh
    = (Returned tt, mkWorld (unauthorized_answer (w_resp fresh)) (w_opened fresh)) /\
  makeHandler up (myFileServer blank "/") (CONNECT_auth "/docs" "Basic djpw") fresh
    = makeHandler up (myFileServer disk rootdir) (GET_auth "/a.txt" "Basic dTpx") fresh.
Proof.
  assert (Hpass : IsAllowed up (GET_auth "/a.txt" "Basic dTpx") = false)
    by reflexivity.
  assert (Huser : IsAllowed up (CONNECT_auth "/docs" "Basic djpw") = false)
    by reflexivity.
  destruct (unauthorized_is_uniform up (myFileServer disk rootdir)
              (GET_auth "/a.txt" "Basic dTpx") fresh Hpass)
    as (Hanswer & _ & _ & Hsame).
  split; [exact Hpass|]. split; [exact Huser|]. split; [exact Hanswer|].
  exact (Hsame (myFileServer blank "/") (CONNECT_auth "/docs" "Basic djpw") Huser).
Defined.

(** C10 on a request without credentials, against the sample tree and an
    empty file system. *)
Lemma unauthorized_reads_nothing_witness :
  IsAllowed up (GET "/a.txt") = false /\
  w_opened (snd (makeHandler up (myFileServer disk rootdir) (GET "/a.txt") fresh))
    = w_opened fresh /\
  makeHandler up (myFileServer disk rootdir) (GET "/a.txt") fresh
    = makeHandler up (myFileServer blank "/")
        (mkRequest (Method (GET "/a.txt")) "/etc/passwd" (Header (GET "/a.txt")))
        fresh.
Proof.
  split; [reflexivity|].
  apply (unauthorized_reads_nothing up disk blank rootdir "/" (GET "/a.txt")
           "/etc/passwd" fresh).
  reflexivity.
Defined.

(** C7 on a handler that panics with an error. *)
Lemma panic_is_stopped_at_boundary_witness :
  IsAllowed up (GET_auth "/" "Basic dTpw") = true /\
  panics (PanicError "disk on fire") (GET_auth "/" "Basic dTpw") "/"
    (server_header fresh)
    = (Panicked (PanicError "disk on fire"), server_header fresh) /\
  makeHandler up (panics (PanicError "disk on fire")) (GET_auth "/" "Basic dTpw") fresh
    = (Returned tt,
       mkWorld (rw_Error "disk on fire" StatusInternalServerError
                  (w_resp (server_header fresh)))
               (w_opened (server_header fresh))).
Proof.
  assert (Hok : IsAllowed up (GET_auth "/" "Basic dTpw") = true) by reflexivity.
  split; [exact Hok|]. split; [reflexivity|].
  apply (proj2 (panic_is_stopped_at_boundary up (panics (PanicError "disk on fire"))
                  (GET_auth "/" "Basic dTpw") fresh)
           "disk on fire" (server_header fresh) Hok).
  reflexivity.
Defined.

(** C7 as stated fails on a panic whose value is not an [error]: the
    boundary stops it, and the response is left without the status 500 and
    without any message. It also fails on a panic with an error that is
    raised after the answer has begun: the status stays the one committed. *)
Lemma panic_with_other_value_gives_no_500 :
  (IsAllowed up (GET_auth "/" "Basic dTpw") = true /\
   panics (PanicOther "boom") (GET_auth "/" "Basic dTpw") "/" (server_header fresh)
     = (Panicked (PanicOther "boom"), server_header fresh) /\
   makeHandler up (panics (PanicOther "boom")) (GET_auth "/" "Basic dTpw") fresh
     = (Returned tt, server_header fresh) /\
   rw_status (w_resp (server_header fresh)) ≠ Some StatusInternalServerError /\
   rw_body (w_resp (server_header fresh)) = "") /\
  (fst (writes_then_panics (PanicError "boom") (GET_auth "/" "Basic dTpw") "/"
          (server_header fresh))
     = Panicked (PanicError "boom") /\
   rw_status (w_resp (snd (makeHandler up (writes_then_panics (PanicError "boom"))
                             (GET_auth "/" "Basic dTpw") fresh)))
     = Some StatusOK /\
   rw_body (w_resp (snd (makeHandler up (writes_then_panics (PanicError "boom"))
                           (GET_auth "/" "Basic dTpw") fresh)))
     = "<pre>boom" +:+ nl).
Proof. repeat split; try reflexivity. discriminate. Qed.

(** C3 on the directory [docs] of the sample tree. *)
Lemma index_is_served_as_file_witness :
  serveFile disk (GET "/docs") "/srv/www/" "docs" fresh
  = http_ServeContent (GET "/docs") "index.html" epoch1970
      (file "index.html" "<h1>docs</h1>" epoch1970)
      (mkWorld (w_resp fresh) ["/srv/www/docs"; "/srv/www/docs/index.html"]).
Proof.
  apply (index_is_served_as_file disk (GET "/docs") "/srv/www/" "docs"
           (dir "docs" nov1994 [Some index_file])
           (file "index.html" "<h1>docs</h1>" epoch1970)
           docs_dir index_file fresh
           (mkWorld (w_resp fresh) ["/srv/www/docs"])
           (mkWorld (w_resp fresh) ["/srv/www/docs"; "/srv/www/docs/index.html"]));
    reflexivity.
Defined.

(** C3 as stated fails when [index.html] is itself a directory: it opens and
    stats, yet the answer is the listing of that directory, not the content
    transmitter's. *)
Lemma index_directory_is_listed :
  Dir_Open disk "/srv/www/" "odd" fresh
    = (Returned (Some (dir "odd" nov1994 [Some index_dir])),
       mkWorld (w_resp fresh) ["/srv/www/odd"]) /\
  Dir_Open disk "/srv/www/" ("odd" +:+ indexPage)
      (mkWorld (w_resp fresh) ["/srv/www/odd"])
    = (Returned (Some (dir "index.html" epoch1970 [Some readme])),
       mkWorld (w_resp fresh) ["/srv/www/odd"; "/srv/www/odd/index.html"]) /\
  serveFile disk (GET "/odd") "/srv/www/" "odd" fresh
    ≠ http_ServeContent (GET "/odd") "index.html" epoch1970
        (dir "index.html" epoch1970 [Some readme])
        (mkWorld (w_resp fresh) ["/srv/www/odd"; "/srv/www/odd/index.html"]) /\
  rw_body (w_resp (snd (serveFile disk (GET "/odd") "/srv/www/" "odd" fresh)))
    = listing_text [readme].
Proof.
  split; [reflexivity|]. split; [reflexivity|]. split; [|reflexivity].
  intros H. apply (f_equal (fun run => rw_body (w_resp (snd run)))) in H.
  vm_compute in H. discriminate H.
Qed.




(** C1 on a request path with a [..] that stays inside. *)
Lemma resolved_path_is_canonical_witness :
  Path.is_rooted rootdir = true /\
  stays_below "/docs/../a.txt" = true /\
  resolved rootdir "/docs/../a.txt" = "/srv/www/a.txt" /\
  Path.within (Path.Clean rootdir) (resolved rootdir "/docs/../a.txt").
Proof.
  assert (Hrooted : Path.is_rooted rootdir = true) by reflexivity.
  split; [exact Hrooted|]. split; [reflexivity|]. split; [reflexivity|].
  apply (proj2 (proj2 (resolved_path_is_canonical disk rootdir "/docs/../a.txt"
                         (GET "/docs/../a.txt") fresh Hrooted))).
  reflexivity.
Defined.

(** C1 as stated fails on a request path with more [..] elements than
    names before them: the name opened lies outside the root, and the file
    found there is sent. *)
Lemma traversal_leaves_root :
  resolved rootdir "/../../etc/passwd" = "/etc/passwd" /\
  ~ Path.within (Path.Clean rootdir) (resolved rootdir "/../../etc/passwd") /\
  myFileServer disk rootdir (CONNECT_auth "/../../etc/passwd" "Basic dTpw")
    "/../../etc/passwd" fresh
    = (Returned tt,
       mkWorld (mkResponseWriter ∅ (Some StatusOK) "root:x:0:0") ["/etc/passwd"]).
Proof.
  split; [reflexivity|]. split; [|reflexivity].
  intros [rest Hrest]. vm_compute in Hrest. discriminate Hrest.
Qed.

End Instances.

(** * The further properties on the sample tree *)

Section MoreInstances.

Import Sample SampleStartup.

Lemma sortedFiles_Less_strict_order_witness :
  sortedFiles_Less [B_txt; a_txt] 1 0 = true /\
  sortedFiles_Less [B_txt; a_txt] 0 1 = false.
Proof.
  assert (H : sortedFiles_Less [B_txt; a_txt] 1 0 = true) by reflexivity.
  split; [exact H|].
  exact (proj1 (proj2 (sortedFiles_Less_strict_order [B_txt; a_txt] 1 0 0)) H).
Defined.

Lemma sortedFiles_Swap_exchanges_witness :
  (0 < length [c_dir; B_txt; a_txt])%nat /\
  (2 < length [c_dir; B_txt; a_txt])%nat /\
  sortedFiles_Swap [c_dir; B_txt; a_txt] 0 2 !! 0%nat = Some a_txt /\
  sortedFiles_Swap (sortedFiles_Swap [c_dir; B_txt; a_txt] 0 2) 0 2
    = [c_dir; B_txt; a_txt].
Proof.
  assert (H0 : (0 < length [c_dir; B_txt; a_txt])%nat) by (simpl; lia).
  assert (H2 : (2 < length [c_dir; B_txt; a_txt])%nat) by (simpl; lia).
  destruct (sortedFiles_Swap_exchanges [c_dir; B_txt; a_txt] 0 2 H0 H2)
    as (Hfst & _ & _ & _ & Hback).
  split; [exact H0|]. split; [exact H2|]. split; [exact Hfst|exact Hback].
Defined.


Lemma serveFile_not_found_witness :
  Dir_Open disk "/srv/www/" "nothing" fresh
    = (Returned None, opened1 "/srv/www/nothing") /\
  serveFile disk (GET "/nothing") "/srv/www/" "nothing" fresh
    = (Returned tt,
       mkWorld (not_found_answer (w_resp fresh)) ["/srv/www/nothing"]).
Proof.
  assert (H : Dir_Open disk "/srv/www/" "nothing" fresh
              = (Returned None, opened1 "/srv/www/nothing")) by reflexivity.
  split; [exact H|].
  exact (proj1 (serveFile_not_found disk (GET "/nothing") "/srv/www/" "nothing"
                  fresh (opened1 "/srv/www/nothing") (or_introl H))).
Defined.

Lemma serveFile_regular_file_witness :
  Dir_Open disk "/srv/www/" "a.txt" fresh
    = (Returned (Some (file "a.txt" "alpha" nov1994)), opened1 "/srv/www/a.txt") /\
  serveFile disk (GET "/a.txt") "/srv/www/" "a.txt" fresh
    = http_ServeContent (GET "/a.txt") "a.txt" nov1994
        (file "a.txt" "alpha" nov1994) (opened1 "/srv/www/a.txt").
Proof.
  assert (H : Dir_Open disk "/srv/www/" "a.txt" fresh
              = (Returned (Some (file "a.txt" "alpha" nov1994)),
                 opened1 "/srv/www/a.txt")) by reflexivity.
  split; [exact H|].
  exact (proj1 (serveFile_regular_file disk (GET "/a.txt") "/srv/www/" "a.txt"
                  (file "a.txt" "alpha" nov1994) a_txt fresh
                  (opened1 "/srv/www/a.txt") H eq_refl eq_refl)).
Defined.

Lemma c_has_no_index :
  index_unusable disk "/srv/www/" "c" (opened1 "/srv/www/c")
    (opened2 "/srv/www/c" "/srv/www/c/index.html").
Proof. left. reflexivity. Defined.

Lemma serveFile_directory_not_modified_witness :
  ModTime c_dir < nov1994 + time_Second /\
  serveFile disk (GET_since "/c" "Sun, 06 Nov 1994 08:49:37 GMT") "/srv/www/" "c" fresh
    = (Returned tt,
       mkWorld (rw_WriteHeader StatusNotModified (w_resp fresh))
               (w_opened (opened2 "/srv/www/c" "/srv/www/c/index.html"))).
Proof.
  assert (Hlt : ModTime c_dir < nov1994 + time_Second) by reflexivity.
  assert (Hopen : Dir_Open disk "/srv/www/" "c" fresh
                  = (Returned (Some (dir "c" nov1994 [])), opened1 "/srv/www/c"))
    by reflexivity.
  assert (Hparse : time_Parse (Header_Get
                      (Header (GET_since "/c" "Sun, 06 Nov 1994 08:49:37 GMT"))
                      "If-Modified-Since") = Some nov1994) by reflexivity.
  split; [exact Hlt|].
  exact (proj1 (serveFile_directory_not_modified disk
                  (GET_since "/c" "Sun, 06 Nov 1994 08:49:37 GMT") "/srv/www/" "c"
                  (dir "c" nov1994 []) c_dir nov1994 fresh _ _
                  Hopen eq_refl eq_refl c_has_no_index eq_refl Hparse Hlt)).
Defined.


Lemma Last_Modified_round_trip_witness :
  time_Parse (time_Format (nov1994 + 500000000)) = Some nov1994 /\
  nov1994 + 500000000 < nov1994 + time_Second /\
  checkLastModified since1994 (nov1994 + 500000000) fresh
    = (Returned true,
       mkWorld (rw_WriteHeader StatusNotModified (w_resp fresh)) (w_opened fresh)).
Proof.
  assert (Hparse : time_Parse (time_Format (nov1994 + 500000000)) = Some nov1994)
    by reflexivity.
  assert (Hlt : nov1994 + 500000000 < nov1994 + time_Second) by reflexivity.
  assert (Hunset : Header (GET "/a.txt") !! "If-Modified-Since" = None)
    by reflexivity.
  assert (Hsent :
    Header_Get (Header since1994) "If-Modified-Since"
    = Header_Get (rw_header (w_resp (snd (checkLastModified (GET "/a.txt")
                                            (nov1994 + 500000000) fresh))))
        "Last-Modified") by reflexivity.
  split; [exact Hparse|]. split; [exact Hlt|].
  exact (Last_Modified_round_trip (GET "/a.txt") since1994 (nov1994 + 500000000)
           nov1994 fresh fresh eq_refl Hunset Hparse Hlt Hsent).
Defined.

Lemma makeHandler_passes_through_witness :
  IsAllowed up (GET_auth "/nothing" "Basic dTpw") = true /\
  disk (resolved rootdir (URL_Path (GET_auth "/nothing" "Basic dTpw"))) = None /\
  w_resp (snd (makeHandler up (myFileServer disk rootdir)
                 (GET_auth "/nothing" "Basic dTpw") fresh))
    = not_found_answer (rw_Set "Server" idstring (w_resp fresh)).
Proof.
  assert (Hok : IsAllowed up (GET_auth "/nothing" "Basic dTpw") = true)
    by reflexivity.
  assert (Hnone : disk (resolved rootdir (URL_Path (GET_auth "/nothing" "Basic dTpw")))
                  = None) by reflexivity.
  split; [exact Hok|]. split; [exact Hnone|].
  exact (proj1 (proj2 (proj2 (makeHandler_passes_through up disk rootdir
                                (myFileServer disk rootdir)
                                (GET_auth "/nothing" "Basic dTpw") fresh Hok)
                               Hnone))).
Defined.

Lemma token_determines_bytes_witness :
  randToken 2 [Byte.x00; Byte.xff; Byte.x1a] = (inl "00ff", [Byte.x1a]) /\
  randToken 2 [Byte.x00; Byte.xff] = (inl "00ff", []) /\
  unhex "00ff" = Some (take 2 [Byte.x00; Byte.xff; Byte.x1a]).
Proof.
  assert (H1 : randToken 2 [Byte.x00; Byte.xff; Byte.x1a] = (inl "00ff", [Byte.x1a]))
    by reflexivity.
  assert (H2 : randToken 2 [Byte.x00; Byte.xff] = (inl "00ff", [])) by reflexivity.
  split; [exact H1|]. split; [exact H2|].
  exact (proj1 (token_determines_bytes 2 _ _ _ _ "00ff" H1 H2)).
Defined.

Lemma resolved_ignores_extra_slashes_witness :
  Path.is_rooted rootdir = true /\
  resolved rootdir ("/docs" +:+ "/") = resolved rootdir "/docs".
Proof.
  assert (H : Path.is_rooted rootdir = true) by reflexivity.
  split; [exact H|].
  exact (proj1 (resolved_ignores_extra_slashes rootdir "/docs" H)).
Defined.

Lemma docs_path_is_tame : tame "/docs/index.html".
Proof.
  apply Forall_cons_2; [by left|].
  apply Forall_cons_2; [by right|].
  apply Forall_cons_2; [by right|]. apply Forall_nil_2.
Defined.

Lemma resolved_of_plain_path_witness :
  Path.is_rooted rootdir = true /\
  tame "/docs/index.html" /\
  resolved rootdir "/docs/index.html"
    = rooted_path (Path.elems (Path.Clean rootdir) ++ Path.elems "/docs/index.html").
Proof.
  assert (H : Path.is_rooted rootdir = true) by reflexivity.
  split; [exact H|]. split; [exact docs_path_is_tame|].
  exact (proj1 (resolved_of_plain_path rootdir "/docs/index.html" H
                  docs_path_is_tame)).
Defined.

Lemma randPort_port_or_error_witness :
  snd (randPort busy)
    = Some "could not listen to find random port: address already in use" /\
  fst (randPort busy) = 0.
Proof.
  assert (H : snd (randPort busy)
              = Some "could not listen to find random port: address already in use")
    by reflexivity.
  split; [exact H|].
  exact (proj1 (randPort_port_or_error busy) _ H).
Defined.


Lemma main_serves_what_it_printed_witness :
  flagHelp plain = false /\
  NArg plain = 0%nat /\
  (40 <= length (replicate 40 Byte.xab))%nat /\
  randPort free_port = (40123, None) /\
  main defaults Duration_String plain (replicate 40 Byte.xab) free_port "/home/mpl"
    = Serving (mkUserPass (Sprintf_x (take 20 (replicate 40 Byte.xab)))
                 (Sprintf_x (take 20 (drop 20 (replicate 40 Byte.xab)))))
        ("localhost" +:+ ":" +:+ pretty 40123)
        (certFile "/home/mpl") (keyFile "/home/mpl") (flagDie plain)
        [Stderr ("user: " +:+ Sprintf_x (take 20 (replicate 40 Byte.xab)) +:+ nl);
         Stderr ("password: "
                 +:+ Sprintf_x (take 20 (drop 20 (replicate 40 Byte.xab))) +:+ nl);
         Stderr ("Starting to listen on: https://"
                 +:+ ("localhost" +:+ ":" +:+ pretty 40123) +:+ nl);
         Stdout ("Server will die in " +:+ Duration_String (flagDie plain) +:+ nl)].
Proof.
  assert (Hhelp : flagHelp plain = false) by reflexivity.
  assert (Hargs : NArg plain = 0%nat) by reflexivity.
  assert (Hsrc : (40 <= length (replicate 40 Byte.xab))%nat)
    by (rewrite length_replicate; apply Nat.le_refl).
  assert (Hport : randPort free_port = (40123, None)) by reflexivity.
  split; [exact Hhelp|]. split; [exact Hargs|]. split; [exact Hsrc|].
  split; [exact Hport|].
  exact (proj1 (main_serves_what_it_printed defaults Duration_String plain
                  (replicate 40 Byte.xab) free_port "/home/mpl" 40123
                  Hhelp Hargs Hsrc Hport)).
Defined.

Lemma key_material_paths_witness :
  Path.is_rooted "/home/mpl" = true /\
  certFile "/home/mpl"
    = rooted_path (Path.elems (Path.Clean "/home/mpl") ++ ["keys"; "cert.pem"]).
Proof.
  assert (H : Path.is_rooted "/home/mpl" = true) by reflexivity.
  split; [exact H|].
  exact (proj1 (proj2 (proj2 (key_material_paths "/home/mpl")) H)).
Defined.

Lemma readdir_loop_cut_at_failure_witness :
  f_dir unreadable = ((Some <$> [a_txt]) ++ None :: [Some B_txt])%list /\
  (length [a_txt] < 100)%nat /\
  readdir_loop unreadable [] = [].
Proof.
  assert (Hdir : f_dir unreadable
                 = ((Some <$> [a_txt]) ++ None :: [Some B_txt])%list) by reflexivity.
  assert (Hlen : (length [a_txt] < 100)%nat) by (simpl; lia).
  split; [exact Hdir|]. split; [exact Hlen|].
  exact (proj2 (readdir_loop_cut_at_failure unreadable [a_txt] [Some B_txt] []
                  Hdir) Hlen).
Defined.

End MoreInstances.
